(** * txt40-screenshot: the capture / convert / name / encode pipeline

    A shallow embedding of [screenshot.cpp] and the properties its
    specification states about it.

    Conventions of the embedding
    - C++ integers are [Z]; the narrowing to [unsigned char] and the
      range of [int] are written out where the source relies on them.
    - [std::string] is [string]; the file system is the finite set of the
      paths for which [stat] succeeds.
    - Everything the program does to the outside world (stat, open, read,
      libpng calls, text on the two output streams) is recorded as a trace
      of events, threaded through a small writer/error monad. *)

From Stdlib Require Import ZArith List String Ascii Lia.
From stdpp Require Import base tactics numbers list strings gmap pretty.

Local Open Scope Z_scope.

(** ** Configuration constants *)

Module Config.

(* Config TXT 4.0 display *)
Definition WIDTH : Z := 240.
Definition HEIGHT : Z := 320.
Definition FRAME_BUF_PATH : string := "/dev/fb0".

(* String buffer sizes *)
Definition DATE_STR_SIZE : nat := 20.
Definition COUNTER_STR_SIZE : nat := 10.

(* Constants for color conversion (RGB565 to RGB888) *)
Definition RED_MAX : Z := 31.
Definition GREEN_MAX : Z := 63.
Definition BLUE_MAX : Z := 31.
Definition COLOR_MAX : Z := 255.

(* Range of the type [int] of the collision counter. *)
Definition INT_MAX : Z := 2147483647.
Definition INT_MIN : Z := -2147483648.

End Config.
Import Config.

(** ** Pixels *)

(** [struct RGB565 { uint16_t blue : 5; uint16_t green : 6; uint16_t red : 5; }]
    is one 16-bit storage unit.  The frame buffer is read into the vector
    byte by byte, so a pixel is kept as that unit and the three members are
    accessors.  On the little-endian ABI of the controller, bit-fields are
    allocated in declaration order starting at the least significant bit:
    [blue] at offset 0, [green] at offset 5, [red] at offset 11. *)
Module RGB565.

Definition t : Type := Z.

Definition bitfield (offset width : Z) (unit : t) : Z :=
  Z.land (Z.shiftr unit offset) (Z.ones width).

Definition blue : t -> Z := bitfield 0 5.
Definition green : t -> Z := bitfield 5 6.
Definition red : t -> Z := bitfield 11 5.

(** The storage unit held by two consecutive bytes of the device
    stream (low byte first). *)
Definition of_bytes (b0 b1 : Z) : t := b0 + 256 * b1.

End RGB565.

Module RGB888.

Record t : Type := mk { red : Z; green : Z; blue : Z }.

Definition zero : t := mk 0 0 0.

End RGB888.

(** Conversion of an [int] to [unsigned char]. *)
Definition to_uchar (v : Z) : Z := v mod 256.

(** [channel * COLOR_MAX / MAX], computed in [int] (the division of C++
    truncates toward zero) and stored into an [unsigned char]. *)
Definition rescale (channel max : Z) : Z :=
  to_uchar (Z.quot (channel * COLOR_MAX) max).

(** Body of the loop of [convertRgb565ToRgb888] for one index. *)
Definition convertPixel (p : RGB565.t) : RGB888.t :=
  {| RGB888.red := rescale (RGB565.red p) RED_MAX;
     RGB888.green := rescale (RGB565.green p) GREEN_MAX;
     RGB888.blue := rescale (RGB565.blue p) BLUE_MAX |}.

(** [for (i = 0; i < n; ++i) buffer888[i] = ... buffer565[i] ...], started
    from [n] value-initialised pixels.  An index outside [buffer565] is an
    out-of-bounds read in the source; here it leaves the slot unchanged. *)
Definition convert_loop (n : nat) (buffer565 : list RGB565.t) : list RGB888.t :=
  foldl (fun buffer888 i =>
           match buffer565 !! i with
           | Some p => <[i := convertPixel p]> buffer888
           | None => buffer888
           end)
        (replicate n RGB888.zero) (seq 0 n).

Definition convertRgb565ToRgb888 (buffer565 : list RGB565.t) : list RGB888.t :=
  convert_loop (Z.to_nat (WIDTH * HEIGHT)) buffer565.

(** The vector of pixels that [read] leaves in memory: two bytes each. *)
Fixpoint pixels_of_bytes (bytes : list Byte.byte) : list RGB565.t :=
  match bytes with
  | b0 :: b1 :: rest =>
      RGB565.of_bytes (Z.of_N (Byte.to_N b0)) (Z.of_N (Byte.to_N b1))
        :: pixels_of_bytes rest
  | _ => []
  end.

(** ** Effects *)

Definition nl : string := String "010"%char "".

Inductive png_color_type := PNG_COLOR_TYPE_GRAY | PNG_COLOR_TYPE_RGB | PNG_COLOR_TYPE_RGB_ALPHA.
Inductive png_interlace := PNG_INTERLACE_NONE | PNG_INTERLACE_ADAM7.
Inductive png_default := PNG_TYPE_DEFAULT.

(** The libpng calls made once the error handler is armed. *)
Inductive png_call :=
| png_init_io
| png_set_IHDR (width height bit_depth : Z) (color : png_color_type)
    (interlace : png_interlace) (compression filter : png_default)
| png_write_info
| png_write_row (row : list RGB888.t)
| png_write_end.

Inductive event :=
| EStat (path : string)
| EOpenDevice (path : string)
| EReadDevice (count : Z)
| EFopen (path : string)
| EFclose
| EPngDestroy
| EPng (call : png_call)
| EStdout (text : string)
| EStderr (text : string).

(** What the invocation finds around itself. *)
Record World := {
  (** the paths for which [stat] succeeds *)
  fs : gset string;
  (** the local time as [strftime] renders it with [%Y-%m-%d-%H-%M-%S] *)
  clock : string;
  (** the bytes the frame buffer device delivers; [None] if it cannot be opened *)
  device : option (list Byte.byte);
  (** whether [fopen (path, "wb")] succeeds *)
  fopen_ok : string -> bool;
  png_write_struct_ok : bool;
  png_info_struct_ok : bool;
  (** the index of the libpng call that reports an error, if any *)
  png_error_at : option nat;
  (** the line the default error handler of libpng writes to the error
      stream when that call reports its error *)
  png_error_text : string;
  (** the line [getopt_long] writes to the error stream at its call number
      [i], when that call returns ['?'] *)
  getopt_stderr : nat -> string;
  (** how the output stream renders the pointer [argv] *)
  argv_text : string
}.

(** How a computation ends. *)
Inductive result (A : Type) :=
| Ok (a : A)
| Thrown (what : string)     (* a [std::runtime_error] nobody catches *)
| OutOfFuel.
Arguments Ok {A} a.
Arguments Thrown {A} what.
Arguments OutOfFuel {A}.

(** Computations: the events so far and how they ended. *)
Definition M (A : Type) : Type := list event * result A.

Definition ret {A} (a : A) : M A := ([], Ok a).

Definition bind {A B} (m : M A) (k : A -> M B) : M B :=
  match m with
  | (t, Ok a) => let (t', r) := k a in (t ++ t', r)
  | (t, Thrown what) => (t, Thrown what)
  | (t, OutOfFuel) => (t, OutOfFuel)
  end.

Definition emit (e : event) : M unit := ([e], Ok tt).
Definition emits (es : list event) : M unit := (es, Ok tt).
Definition throw {A} (what : string) : M A := ([], Thrown what).

Notation "'let*' x ':=' m 'in' k" := (bind m (fun x => k))
  (at level 10, x name, m at level 100, k at level 200).
Notation "m '>>>' k" := (bind m (fun _ => k))
  (at level 90, right associativity).

(** ** File names *)

(** [getDate]: the text [strftime] left in the array. *)
Definition getDate (w : World) : string := clock w.

(** [fileExists]: [stat (path) == 0]. *)
Definition fileExists (w : World) (path : string) : M bool :=
  emit (EStat path) >>> ret (bool_decide (path ∈ fs w)).

(** [std::to_chars (first, first + capacity, value)]: the decimal text of
    [value], or [value_too_large] ([None]) when it does not fit. *)
Definition to_chars (capacity : nat) (value : Z) : option string :=
  let text := pretty value in
  if (String.length text <=? capacity)%nat then Some text else None.

Fixpoint nuls (n : nat) : string :=
  match n with O => "" | S n' => String "000"%char (nuls n') end.

(** [std::string::resize (n)]. *)
Definition resize (n : nat) (s : string) : string :=
  if (n <=? String.length s)%nat then String.substring 0 n s
  else s +:+ nuls (n - String.length s).

(** [++counter] on an [int], a 32-bit two's complement integer: at
    [INT_MAX] the increment wraps around to [INT_MIN].  (C++ leaves the
    overflow of a signed integer undefined; wrapping is what the machine
    instruction does.) *)
Definition incr_int (counter : Z) : Z :=
  if counter <? INT_MAX then counter + 1 else INT_MIN.

(** The loop that looks for a free name, entered with the candidate
    [filePath] and the next value of [counter]. *)
Fixpoint unique_loop (w : World) (basePathSize : nat) (fuel : nat)
    (filePath : string) (counter : Z) : M string :=
  match fuel with
  | O => ([], OutOfFuel)
  | S fuel' =>
      let* taken := fileExists w filePath in
      if taken : bool then
        (* convert the counter number into a string *)
        match to_chars COUNTER_STR_SIZE counter with
        | None => throw "Failed to convert number to string"
        | Some counterStr =>
            (* strip the counter number and the suffix *)
            let filePath := resize basePathSize filePath in
            (* append the new counter & suffix *)
            let filePath := filePath +:+ "-" in
            let filePath := filePath +:+ counterStr in
            let filePath := filePath +:+ ".png" in
            let counter := incr_int counter in
            unique_loop w basePathSize fuel' filePath counter
        end
      else ret filePath
  end.

Definition generateFileName (w : World) (fuel : nat)
    (directory baseName : string) (includeDate : bool) : M string :=
  let dateStr := if includeDate then getDate w else "" in
  let filePath := "" in
  (* construct the initial file path *)
  let filePath :=
    if bool_decide (directory = "") then filePath
    else (filePath +:+ directory) +:+ "/" in
  let filePath := filePath +:+ baseName in
  let filePath :=
    if includeDate then (filePath +:+ "-") +:+ dateStr else filePath in
  let filePath := filePath +:+ ".png" in
  (* size of the base file path (without ".png") *)
  let basePathSize := (String.length filePath - 4)%nat in
  unique_loop w basePathSize fuel filePath 1.

(** ** Encoder *)

(** The calls [writePng] makes between [setjmp] and the clean-up. *)
Definition png_calls (buffer : list RGB888.t) : list png_call :=
  [png_init_io;
   png_set_IHDR WIDTH HEIGHT 8 PNG_COLOR_TYPE_RGB PNG_INTERLACE_NONE
     PNG_TYPE_DEFAULT PNG_TYPE_DEFAULT;
   png_write_info]
  ++ map (fun y : nat =>
            (* [&buffer[y * WIDTH]], of which libpng takes one row *)
            png_write_row
              (take (Z.to_nat WIDTH) (drop (y * Z.to_nat WIDTH) buffer)))
         (seq 0 (Z.to_nat HEIGHT))
  ++ [png_write_end].

Definition writePng (w : World) (filename : string) (buffer : list RGB888.t)
    : M unit :=
  emit (EFopen filename) >>>
  if negb (fopen_ok w filename) then
    emit (EStderr ("Failed to open file for writing" +:+ nl))
  else if negb (png_write_struct_ok w) then
    emit (EStderr ("Failed to create PNG write struct" +:+ nl)) >>>
    emit EFclose
  else if negb (png_info_struct_ok w) then
    emit (EStderr ("Failed to create PNG info struct" +:+ nl)) >>>
    emit EPngDestroy >>>
    emit EFclose
  else
    match png_error_at w with
    | Some k =>
        if (k <? length (png_calls buffer))%nat then
          (* no error function was given to [png_create_write_struct]: the
             default handler of libpng prints its message and jumps back to
             [setjmp] *)
          emits (map EPng (take k (png_calls buffer))) >>>
          emit (EStderr (png_error_text w)) >>>
          emit (EStderr ("Failed to set PNG jump buffer" +:+ nl)) >>>
          emit EPngDestroy >>>
          emit EFclose
        else
          emits (map EPng (png_calls buffer)) >>>
          emit EPngDestroy >>>
          emit EFclose
    | None =>
        emits (map EPng (png_calls buffer)) >>>
        emit EPngDestroy >>>
        emit EFclose
    end.

(** ** Command line and [main] *)

Record Options := {
  baseName : string;
  directory : string;
  includeDate : bool;
  showHelp : bool
}.

Definition default_options : Options :=
  {| baseName := "screenshot"; directory := ""; includeDate := true;
     showHelp := false |}.

Definition char_code (c : ascii) : Z := Z.of_nat (nat_of_ascii c).

(** One round of the [switch] on what [getopt_long] returned, with the
    [optarg] it left. *)
Definition handle_option (o : Options) (got : Z * string) : Options :=
  let (shortOpt, optarg) := got in
  if shortOpt =? char_code "n" then
    {| baseName := optarg; directory := directory o;
       includeDate := includeDate o; showHelp := showHelp o |}
  else if shortOpt =? char_code "d" then
    {| baseName := baseName o; directory := optarg;
       includeDate := includeDate o; showHelp := showHelp o |}
  else if shortOpt =? char_code "x" then
    {| baseName := baseName o; directory := directory o;
       includeDate := false; showHelp := showHelp o |}
  else
    (* case 'h' and default *)
    {| baseName := baseName o; directory := directory o;
       includeDate := includeDate o; showHelp := true |}.

(** The [while] loop over the values [getopt_long] returns before -1. *)
Definition parse_options (getopt : list (Z * string)) : Options :=
  fold_left handle_option getopt default_options.

Definition usage (w : World) : string :=
  "Usage: " +:+ argv_text w +:+ " [options]" +:+ nl
  +:+ "Options:" +:+ nl
  +:+ "  -n, --name      Base name for the screenshot file (default: screenshot)" +:+ nl
  +:+ "  -d, --directory Directory to save the screenshot (default: current directory)" +:+ nl
  +:+ "  -x, --no-date   Do not include the date in the filename" +:+ nl
  +:+ "  -h, --help      Show this help message" +:+ nl.

(** What the calls of [getopt_long] in the loop condition write to the
    error stream: [opterr] is left at its default and the option string does
    not start with a colon, so every call that returns ['?'] (unrecognized
    option, missing or unexpected argument) has printed a line. *)
Fixpoint getopt_long_stderr (w : World) (call : nat)
    (getopt : list (Z * string)) : list event :=
  match getopt with
  | [] => []
  | (shortOpt, _) :: rest =>
      (if shortOpt =? char_code "?" then [EStderr (getopt_stderr w call)] else [])
      ++ getopt_long_stderr w (S call) rest
  end.

(** [main], given the values [getopt_long] yields for the command line.
    The value computed is the exit status. *)
Definition main (w : World) (fuel : nat) (getopt : list (Z * string)) : M Z :=
  emits (getopt_long_stderr w 0 getopt) >>>
  let o := parse_options getopt in
  if showHelp o then
    emit (EStdout (usage w)) >>> ret 0
  else
    let* outputFile := generateFileName w fuel (directory o) (baseName o) (includeDate o) in
    emit (EOpenDevice FRAME_BUF_PATH) >>>
    match device w with
    | None =>
        emit (EStderr ("Failed to open frame buffer" +:+ nl)) >>> ret 1
    | Some stream =>
        let count := WIDTH * HEIGHT * 2 in
        emit (EReadDevice count) >>>
        if Z.of_nat (length stream) <? count then
          emit (EStderr ("Failed to read frame buffer" +:+ nl)) >>> ret 1
        else
          let buffer565 := pixels_of_bytes (take (Z.to_nat count) stream) in
          let buffer888 := convertRgb565ToRgb888 buffer565 in
          writePng w outputFile buffer888 >>>
          emit (EStdout ("Screenshot saved as " +:+ outputFile +:+ nl)) >>>
          ret 0
    end.

(** What an invocation leaves behind. *)
Definition trace {A} (m : M A) : list event := fst m.
Definition outcome {A} (m : M A) : result A := snd m.

Definition is_fopen (e : event) : bool :=
  match e with EFopen _ => true | _ => false end.
Definition is_stat (e : event) : bool :=
  match e with EStat _ => true | _ => false end.
Definition is_device (e : event) : bool :=
  match e with EOpenDevice _ | EReadDevice _ => true | _ => false end.
Definition is_stderr (e : event) : bool :=
  match e with EStderr _ => true | _ => false end.

(** ** Vocabulary of the statements *)

(** [[directory/]base[-timestamp]]: the candidate path without its
    extension. *)
Definition base_path (w : World) (directory baseName : string)
    (includeDate : bool) : string :=
  (if bool_decide (directory = "") then "" else directory +:+ "/")
  +:+ baseName
  +:+ (if includeDate then "-" +:+ getDate w else "").

(** The names tried in turn: the candidate itself, then the candidate with
    the disambiguator [-N] between base and extension. *)
Definition name_of (base : string) (n : nat) : string :=
  match n with
  | O => base +:+ ".png"
  | S _ => base +:+ "-" +:+ pretty (Z.of_nat n) +:+ ".png"
  end.

(** The value of [counter] when the loop examines the name number [n]:
    [n + 1], and [INT_MIN] once the counter has wrapped. *)
Definition counter_of (n : nat) : Z :=
  if Z.of_nat n <? INT_MAX then Z.of_nat n + 1 else INT_MIN.


Definition world_of (files : gset string) (dev : option (list Byte.byte))
    (writable : bool) : World :=
  {| fs := files; clock := "2024-07-26-12-00-00"; device := dev;
     fopen_ok := fun _ => writable; png_write_struct_ok := true;
     png_info_struct_ok := true; png_error_at := None;
     png_error_text := "libpng error: Write Error" +:+ nl;
     getopt_stderr := fun _ => "screenshot: invalid option -- 'z'" +:+ nl;
     argv_text := "0x7ffc0a1b2c38" |}.

(** The scanlines handed to [png_write_row] in a trace, in order. *)
Definition row_of (e : event) : option (list RGB888.t) :=
  match e with EPng (png_write_row row) => Some row | _ => None end.
Definition written_rows (t : list event) : list (list RGB888.t) := omap row_of t.

(** The libpng calls of a trace, in order. *)
Definition call_of (e : event) : option png_call :=
  match e with EPng call => Some call | _ => None end.
Definition png_calls_of (t : list event) : list png_call := omap call_of t.

(** The text sent to the error stream in a trace. *)
Definition stderr_of (e : event) : option string :=
  match e with EStderr text => Some text | _ => None end.
Definition diagnostics (t : list event) : list string := omap stderr_of t.

(** The text sent to the output stream in a trace. *)
Definition stdout_of (e : event) : option string :=
  match e with EStdout text => Some text | _ => None end.
Definition printed (t : list event) : list string := omap stdout_of t.

(** The paths handed to [fopen] in a trace, in order. *)
Definition fopen_of (e : event) : option string :=
  match e with EFopen path => Some path | _ => None end.
Definition opened_files (t : list event) : list string := omap fopen_of t.

(** The paths handed to [stat] in a trace, in order. *)
Definition stat_of (e : event) : option string :=
  match e with EStat path => Some path | _ => None end.
Definition examined (t : list event) : list string := omap stat_of t.

(** How often a kind of event occurs in a trace. *)
Definition occurrences (kind : event -> bool) (t : list event) : nat :=
  length (List.filter kind t).

Definition is_fclose (e : event) : bool :=
  match e with EFclose => true | _ => false end.
Definition is_destroy (e : event) : bool :=
  match e with EPngDestroy => true | _ => false end.

(** The scanlines of a buffer of [WIDTH * HEIGHT] pixels, top to bottom. *)
Definition scanlines (buffer : list RGB888.t) : list (list RGB888.t) :=
  (fun y : nat => take 240 (drop (y * 240) buffer)) <$> seq 0 320.

(** Membership in a concrete file system is settled by evaluation. *)
Ltac decide_by_evaluation :=
  apply (bool_decide_unpack _); vm_compute; exact I.

(** * Lemmas *)

(** ** Pixel lemmas *)

Lemma bitfield_range offset width unit :
  0 <= width -> 0 <= RGB565.bitfield offset width unit < 2 ^ width.
Proof.
  intros Hw. unfold RGB565.bitfield.
  rewrite Z.land_ones by assumption.
  apply Z.mod_pos_bound. apply Z.pow_pos_nonneg; lia.
Qed.

Lemma red_range p : 0 <= RGB565.red p <= 31.
Proof. pose proof (bitfield_range 11 5 p). unfold RGB565.red. simpl in *. lia. Qed.

Lemma green_range p : 0 <= RGB565.green p <= 63.
Proof. pose proof (bitfield_range 5 6 p). unfold RGB565.green. simpl in *. lia. Qed.

Lemma blue_range p : 0 <= RGB565.blue p <= 31.
Proof. pose proof (bitfield_range 0 5 p). unfold RGB565.blue. simpl in *. lia. Qed.

(** On representable channel values the [int] computation neither
    truncates differently from the floor nor loses anything in the
    narrowing to [unsigned char]. *)
Lemma rescale_floor v max :
  0 < max -> 0 <= v <= max -> rescale v max = v * 255 / max /\ 0 <= rescale v max <= 255.
Proof.
  intros Hmax Hv. unfold rescale, to_uchar, COLOR_MAX.
  rewrite Z.quot_div_nonneg by lia.
  assert (0 <= v * 255 / max) by (apply Z.div_pos; lia).
  assert (v * 255 / max <= 255).
  { apply Z.div_le_upper_bound; [lia|]. nia. }
  rewrite Z.mod_small by lia. lia.
Qed.

Lemma rescale_mono a b max :
  0 < max -> 0 <= a -> a <= b -> b <= max -> rescale a max <= rescale b max.
Proof.
  intros Hmax Ha Hab Hb.
  destruct (rescale_floor a max) as [-> _]; [lia..|].
  destruct (rescale_floor b max) as [-> _]; [lia..|].
  apply Z.div_le_mono; lia.
Qed.

Lemma convertPixel_floor p :
  convertPixel p =
  {| RGB888.red := RGB565.red p * 255 / 31;
     RGB888.green := RGB565.green p * 255 / 63;
     RGB888.blue := RGB565.blue p * 255 / 31 |}.
Proof.
  unfold convertPixel, RED_MAX, GREEN_MAX, BLUE_MAX.
  destruct (rescale_floor (RGB565.red p) 31) as [-> _]; [lia|apply red_range|].
  destruct (rescale_floor (RGB565.green p) 63) as [-> _]; [lia|apply green_range|].
  destruct (rescale_floor (RGB565.blue p) 31) as [-> _]; [lia|apply blue_range|].
  reflexivity.
Qed.

(** The indexed loop is the pointwise map when the source buffer has the
    length the loop runs over. *)
Lemma convert_loop_prefix (buffer565 : list RGB565.t) (k n : nat) :
  (k <= n)%nat -> (n <= length buffer565)%nat ->
  foldl (fun buffer888 i =>
           match buffer565 !! i with
           | Some p => <[i := convertPixel p]> buffer888
           | None => buffer888
           end)
        (replicate n RGB888.zero) (seq 0 k)
  = map convertPixel (take k buffer565) ++ replicate (n - k) RGB888.zero.
Proof.
  intros Hk Hn. induction k as [|k IH].
  - simpl. rewrite Nat.sub_0_r. reflexivity.
  - rewrite seq_S, foldl_app, IH by lia. simpl.
    destruct (lookup_lt_is_Some_2 buffer565 k) as [p Hp]; [lia|].
    rewrite Hp, (take_S_r _ _ _ Hp), map_app. simpl.
    assert (Hlen : length (map convertPixel (take k buffer565)) = k).
    { rewrite length_map, length_take. lia. }
    replace (n - k)%nat with (S (n - S k)) by lia. simpl.
    rewrite <- (Nat.add_0_r k) at 1.
    rewrite <- Hlen at 1.
    rewrite insert_app_r. simpl. rewrite <- app_assoc. reflexivity.
Qed.

Lemma convert_loop_map (buffer565 : list RGB565.t) (n : nat) :
  length buffer565 = n -> convert_loop n buffer565 = map convertPixel buffer565.
Proof.
  intros Hn. unfold convert_loop.
  rewrite convert_loop_prefix by lia.
  rewrite Nat.sub_diag, take_ge by lia. simpl. apply app_nil_r.
Qed.

(** ** Strings *)

Lemma str_app_cons c a b : String c a +:+ b = String c (a +:+ b).
Proof. reflexivity. Qed.

Lemma str_app_nil_r a : a +:+ "" = a.
Proof. induction a as [|c a IH]; [reflexivity|]. rewrite str_app_cons, IH. reflexivity. Qed.

Lemma str_app_assoc a b c : (a +:+ b) +:+ c = a +:+ b +:+ c.
Proof.
  induction a as [|x a IH]; [reflexivity|].
  rewrite !str_app_cons, IH. reflexivity.
Qed.

Lemma str_length_app a b :
  String.length (a +:+ b) = (String.length a + String.length b)%nat.
Proof.
  induction a as [|x a IH]; [reflexivity|].
  rewrite str_app_cons. simpl. rewrite IH. reflexivity.
Qed.

Lemma substring_prefix a b : String.substring 0 (String.length a) (a +:+ b) = a.
Proof.
  induction a as [|x a IH].
  - destruct b; reflexivity.
  - rewrite str_app_cons. simpl. rewrite IH. reflexivity.
Qed.

Lemma resize_prefix a b : resize (String.length a) (a +:+ b) = a.
Proof.
  unfold resize. rewrite str_length_app.
  destruct (Nat.leb_spec (String.length a) (String.length a + String.length b)) as [_|?];
    [apply substring_prefix|lia].
Qed.

Lemma str_app_inj_r a b c : a +:+ c = b +:+ c -> a = b.
Proof.
  revert b. induction a as [|x a IH]; intros [|y b] H.
  - reflexivity.
  - apply (f_equal String.length) in H.
    rewrite !str_length_app in H. simpl in H. lia.
  - apply (f_equal String.length) in H.
    rewrite !str_length_app in H. simpl in H. lia.
  - rewrite !str_app_cons in H. injection H as -> H. f_equal. apply IH, H.
Qed.

(** ** Decimal text of the counter *)

Lemma pretty_N_go_length (k : nat) : forall (x : N) (s : string),
  (x < 10 ^ N.of_nat k)%N ->
  (String.length (pretty_N_go x s) <= k + String.length s)%nat.
Proof.
  induction k as [|k IH]; intros x s Hx.
  - assert (x = 0%N) as -> by (simpl in Hx; lia).
    rewrite pretty_N_go_0. lia.
  - destruct (N.eq_dec x 0%N) as [->|Hne].
    + rewrite pretty_N_go_0. lia.
    + rewrite pretty_N_go_step by lia.
      etransitivity; [apply IH|simpl; lia].
      apply N.Div0.div_lt_upper_bound.
      rewrite Nat2N.inj_succ, N.pow_succ_r' in Hx. lia.
Qed.

Lemma pretty_length_int (c : Z) :
  0 <= c <= INT_MAX -> (String.length (pretty c) <= COUNTER_STR_SIZE)%nat.
Proof.
  intros Hc. destruct c as [|p|p]; [simpl; unfold COUNTER_STR_SIZE; lia| |lia].
  change (pretty (Z.pos p)) with (pretty (N.pos p)).
  unfold pretty, pretty_N. rewrite decide_False by discriminate.
  etransitivity; [apply (pretty_N_go_length 10)|simpl; unfold COUNTER_STR_SIZE; lia].
  unfold INT_MAX in Hc. change (10 ^ N.of_nat 10)%N with 10000000000%N. lia.
Qed.

Lemma to_chars_int (c : Z) :
  0 <= c <= INT_MAX -> to_chars COUNTER_STR_SIZE c = Some (pretty c).
Proof.
  intros Hc. unfold to_chars.
  destruct (Nat.leb_spec (String.length (pretty c)) COUNTER_STR_SIZE) as [_|Hlt];
    [reflexivity|].
  pose proof (pretty_length_int c Hc). lia.
Qed.

(** ** The sequence of names *)

Lemma name_of_prefix base n : exists suffix, name_of base n = base +:+ suffix.
Proof. destruct n; eexists; reflexivity. Qed.

Lemma name_of_succ base (n : nat) :
  ((resize (String.length base) (name_of base n) +:+ "-")
     +:+ pretty (Z.of_nat n + 1)) +:+ ".png"
  = name_of base (S n).
Proof.
  destruct (name_of_prefix base n) as [suffix ->].
  rewrite resize_prefix, !str_app_assoc.
  replace (Z.of_nat n + 1) with (Z.of_nat (S n)) by lia. reflexivity.
Qed.

Lemma name_of_inj base (n m : nat) : name_of base n = name_of base m -> n = m.
Proof.
  destruct n as [|n], m as [|m]; unfold name_of; intros H.
  - reflexivity.
  - apply (inj (String.append base)) in H. discriminate H.
  - apply (inj (String.append base)) in H. discriminate H.
  - apply (inj (String.append base)) in H.
    apply (inj (String.append "-")) in H.
    apply str_app_inj_r in H.
    apply (inj pretty) in H. lia.
Qed.

(** ** One round of the loop *)

Lemma counter_of_small (c : nat) :
  Z.of_nat c < INT_MAX -> counter_of c = Z.of_nat c + 1.
Proof.
  intros Hc. unfold counter_of.
  destruct (Z.ltb_spec (Z.of_nat c) INT_MAX) as [_|?]; [reflexivity|lia].
Qed.

Lemma counter_of_wrapped (c : nat) :
  Z.of_nat c = INT_MAX -> counter_of c = INT_MIN.
Proof.
  intros Hc. unfold counter_of.
  destruct (Z.ltb_spec (Z.of_nat c) INT_MAX) as [?|_]; [lia|reflexivity].
Qed.

Lemma incr_int_counter_of (c : nat) :
  Z.of_nat c < INT_MAX -> incr_int (counter_of c) = counter_of (S c).
Proof.
  intros Hc. rewrite counter_of_small by exact Hc. unfold incr_int, counter_of.
  destruct (Z.ltb_spec (Z.of_nat c + 1) INT_MAX),
           (Z.ltb_spec (Z.of_nat (S c)) INT_MAX); lia.
Qed.

(** The text of [INT_MIN] takes eleven characters. *)
Lemma to_chars_int_min : to_chars COUNTER_STR_SIZE INT_MIN = None.
Proof. vm_compute. reflexivity. Qed.

Lemma unique_loop_free w size fuel filePath counter :
  filePath ∉ fs w ->
  unique_loop w size (S fuel) filePath counter = ([EStat filePath], Ok filePath).
Proof.
  intros Hfree. cbn [unique_loop]. unfold fileExists.
  rewrite bool_decide_eq_false_2 by assumption. reflexivity.
Qed.

Lemma unique_loop_taken w fuel base (c : nat) :
  name_of base c ∈ fs w -> Z.of_nat c < INT_MAX ->
  unique_loop w (String.length base) (S fuel) (name_of base c) (counter_of c)
  = (EStat (name_of base c)
       :: fst (unique_loop w (String.length base) fuel (name_of base (S c))
                 (counter_of (S c))),
     snd (unique_loop w (String.length base) fuel (name_of base (S c))
            (counter_of (S c)))).
Proof.
  intros Htaken Hc. cbn [unique_loop]. unfold fileExists.
  rewrite bool_decide_eq_true_2 by assumption.
  unfold emit, ret. cbn [bind app].
  rewrite incr_int_counter_of by exact Hc.
  rewrite counter_of_small by exact Hc.
  rewrite to_chars_int by lia.
  rewrite name_of_succ. cbv zeta.
  destruct (unique_loop w (String.length base) fuel (name_of base (S c))
              (counter_of (S c))) as [t r].
  reflexivity.
Qed.

(** Once the counter has wrapped, a further collision ends in the
    exception. *)
Lemma unique_loop_throws w fuel base (c : nat) :
  name_of base c ∈ fs w -> Z.of_nat c = INT_MAX ->
  unique_loop w (String.length base) (S fuel) (name_of base c) (counter_of c)
  = ([EStat (name_of base c)], Thrown "Failed to convert number to string").
Proof.
  intros Htaken Hc. cbn [unique_loop]. unfold fileExists.
  rewrite bool_decide_eq_true_2 by assumption.
  unfold emit, ret. cbn [bind app].
  rewrite counter_of_wrapped by exact Hc.
  rewrite to_chars_int_min. reflexivity.
Qed.

(** ** Runs of the loop *)

(** [k] names in a row are taken and the next one is free: the loop
    returns that one after [k + 1] rounds. *)
Lemma unique_loop_run w base (k : nat) : forall (c fuel : nat),
  (forall j : nat, (c <= j < c + k)%nat -> name_of base j ∈ fs w) ->
  name_of base (c + k) ∉ fs w ->
  Z.of_nat (c + k) <= INT_MAX ->
  unique_loop w (String.length base) (S k + fuel) (name_of base c) (counter_of c)
  = (EStat <$> (name_of base <$> seq c (S k)), Ok (name_of base (c + k))).
Proof.
  induction k as [|k IH]; intros c fuel Htaken Hfree Hbound.
  - rewrite Nat.add_0_r in *. apply unique_loop_free, Hfree.
  - change (S (S k) + fuel)%nat with (S (S k + fuel)).
    rewrite unique_loop_taken by (first [apply Htaken; lia | lia]).
    rewrite (IH (S c) fuel).
    + cbn [fst snd]. replace (S c + k)%nat with (c + S k)%nat by lia. reflexivity.
    + intros j Hj. apply Htaken. lia.
    + replace (S c + k)%nat with (c + S k)%nat by lia. exact Hfree.
    + lia.
Qed.

(** The loop looks at nothing but file names, and it throws only when
    every name from the one at hand up to number [INT_MAX] is taken. *)
Lemma unique_loop_safe w base (fuel : nat) : forall c : nat,
  Z.of_nat c <= INT_MAX ->
  (forall what,
     snd (unique_loop w (String.length base) fuel (name_of base c) (counter_of c))
     = Thrown what ->
     what = "Failed to convert number to string"
     /\ forall j : nat, (c <= j)%nat -> Z.of_nat j <= INT_MAX ->
          name_of base j ∈ fs w)
  /\ forallb is_stat (fst (unique_loop w (String.length base) fuel (name_of base c)
                             (counter_of c))) = true.
Proof.
  induction fuel as [|fuel IH]; intros c Hc.
  - split; [intros what; discriminate|reflexivity].
  - destruct (decide (name_of base c ∈ fs w)) as [Hin|Hout].
    + destruct (Z.eq_dec (Z.of_nat c) INT_MAX) as [Heq|Hne].
      * rewrite unique_loop_throws by assumption.
        split; [|reflexivity]. cbn [snd]. intros what [= <-].
        split; [reflexivity|]. intros j Hcj Hj.
        replace j with c by lia. exact Hin.
      * rewrite unique_loop_taken by (assumption || lia).
        cbn [fst snd forallb is_stat andb].
        destruct (IH (S c)) as [Hthrown Hstat]; [lia|].
        split; [|exact Hstat]. intros what Hwhat.
        destruct (Hthrown what Hwhat) as [Hmsg Hall].
        split; [exact Hmsg|]. intros j Hcj Hj.
        destruct (decide (j = c)) as [->|]; [exact Hin|]. apply Hall; lia.
    + rewrite unique_loop_free by assumption.
      split; [intros what; discriminate|reflexivity].
Qed.


(** ** Finding the first free name *)

Lemma taken_prefix_size (files : gset string) base (n : nat) :
  (forall j : nat, (j < n)%nat -> name_of base j ∈ files) -> (n <= size files)%nat.
Proof.
  intros Htaken.
  assert (HND : NoDup (name_of base <$> seq 0 n)).
  { apply NoDup_fmap_2; [|apply NoDup_seq].
    intros a b. apply name_of_inj. }
  transitivity (size (list_to_set (name_of base <$> seq 0 n) : gset string)).
  { rewrite size_list_to_set by exact HND.
    rewrite length_fmap, length_seq. reflexivity. }
  apply subseteq_size. intros p Hp.
  apply elem_of_list_to_set, list_elem_of_fmap in Hp as (j & -> & Hj).
  apply elem_of_seq in Hj. apply Htaken. lia.
Qed.

Lemma first_free_below (files : gset string) base (n : nat) :
  (exists k : nat, (k < n)%nat /\ (name_of base k ∉ files)
                   /\ forall j : nat, (j < k)%nat -> name_of base j ∈ files)
  \/ (forall j : nat, (j < n)%nat -> name_of base j ∈ files).
Proof.
  induction n as [|n [(k & Hk & Hfree & Hlow)|Hall]].
  - right. intros j Hj. lia.
  - left. exists k. split; [lia|]. split; assumption.
  - destruct (decide (name_of base n ∈ files)) as [Hin|Hout].
    + right. intros j Hj. destruct (decide (j = n)) as [->|]; [assumption|].
      apply Hall. lia.
    + left. exists n. split; [lia|]. split; assumption.
Qed.

Lemma first_free (files : gset string) base :
  exists k : nat, (k <= size files)%nat /\ (name_of base k ∉ files)
                  /\ forall j : nat, (j < k)%nat -> name_of base j ∈ files.
Proof.
  destruct (first_free_below files base (S (size files)))
    as [(k & Hk & Hfree & Hlow)|Hall].
  - exists k. split; [lia|]. split; assumption.
  - apply taken_prefix_size in Hall. lia.
Qed.

(** ** The generator as a run of the loop *)

Lemma generateFileName_loop w fuel dir bn incl :
  generateFileName w fuel dir bn incl
  = unique_loop w (String.length (base_path w dir bn incl)) fuel
      (name_of (base_path w dir bn incl) 0) (counter_of 0).
Proof.
  unfold generateFileName, base_path, name_of.
  assert (Hsize : forall s, (String.length (s +:+ ".png") - 4)%nat = String.length s).
  { intros s. rewrite str_length_app. simpl. lia. }
  change (counter_of 0) with 1.
  destruct (bool_decide (dir = "")), incl; cbv zeta; rewrite Hsize;
    repeat change ("" +:+ ?s) with s;
    rewrite ?str_app_assoc, ?str_app_nil_r; reflexivity.
Qed.

Lemma generateFileName_first_free w dir bn incl (k fuel : nat) :
  (forall j : nat, (j < k)%nat -> name_of (base_path w dir bn incl) j ∈ fs w) ->
  name_of (base_path w dir bn incl) k ∉ fs w ->
  Z.of_nat k <= INT_MAX ->
  generateFileName w (S k + fuel) dir bn incl
  = (EStat <$> (name_of (base_path w dir bn incl) <$> seq 0 (S k)),
     Ok (name_of (base_path w dir bn incl) k)).
Proof.
  intros Htaken Hfree Hk. rewrite generateFileName_loop.
  apply (unique_loop_run w _ k 0 fuel).
  - intros j Hj. apply Htaken. lia.
  - exact Hfree.
  - exact Hk.
Qed.

Lemma generateFileName_returns w dir bn incl :
  Z.of_nat (size (fs w)) < INT_MAX ->
  exists k : nat,
    (forall j : nat, (j < k)%nat -> name_of (base_path w dir bn incl) j ∈ fs w)
    /\ (name_of (base_path w dir bn incl) k ∉ fs w)
    /\ forall fuel : nat,
         generateFileName w (S k + fuel) dir bn incl
         = (EStat <$> (name_of (base_path w dir bn incl) <$> seq 0 (S k)),
            Ok (name_of (base_path w dir bn incl) k)).
Proof.
  intros Hsize.
  destruct (first_free (fs w) (base_path w dir bn incl)) as (k & Hk & Hfree & Htaken).
  exists k. split; [exact Htaken|]. split; [exact Hfree|].
  intros fuel. apply generateFileName_first_free; [assumption..|lia].
Qed.


Lemma generateFileName_safe w fuel dir bn incl :
  (forall what,
     snd (generateFileName w fuel dir bn incl) = Thrown what ->
     what = "Failed to convert number to string"
     /\ forall j : nat, Z.of_nat j <= INT_MAX ->
          name_of (base_path w dir bn incl) j ∈ fs w)
  /\ forallb is_stat (fst (generateFileName w fuel dir bn incl)) = true.
Proof.
  rewrite generateFileName_loop.
  destruct (unique_loop_safe w (base_path w dir bn incl) fuel 0) as [Hthrown Hstat];
    [unfold INT_MAX; lia|].
  split; [|exact Hstat]. intros what Hwhat.
  destruct (Hthrown what Hwhat) as [Hmsg Hall].
  split; [exact Hmsg|]. intros j Hj. apply Hall; [lia|exact Hj].
Qed.



(** ** The encoder *)

Lemma writePng_returns w filename buffer : snd (writePng w filename buffer) = Ok tt.
Proof.
  unfold writePng.
  destruct (fopen_ok w filename), (png_write_struct_ok w), (png_info_struct_ok w);
    try reflexivity.
  destruct (png_error_at w) as [k|]; [|reflexivity].
  destruct (k <? length (png_calls buffer))%nat; reflexivity.
Qed.

Lemma writePng_unwritable w filename buffer :
  fopen_ok w filename = false ->
  writePng w filename buffer
  = ([EFopen filename; EStderr ("Failed to open file for writing" +:+ nl)], Ok tt).
Proof. intros H. unfold writePng. rewrite H. reflexivity. Qed.

Lemma writePng_complete w filename buffer :
  fopen_ok w filename = true -> png_write_struct_ok w = true ->
  png_info_struct_ok w = true -> png_error_at w = None ->
  writePng w filename buffer
  = (EFopen filename :: (EPng <$> png_calls buffer) ++ [EPngDestroy; EFclose], Ok tt).
Proof.
  intros H1 H2 H3 H4. unfold writePng. rewrite H1, H2, H3, H4.
  unfold emits, emit. cbn [negb bind app]. reflexivity.
Qed.

Lemma writePng_encoder_error w filename buffer (k : nat) :
  fopen_ok w filename = true -> png_write_struct_ok w = true ->
  png_info_struct_ok w = true -> png_error_at w = Some k ->
  (k < length (png_calls buffer))%nat ->
  writePng w filename buffer
  = (EFopen filename :: (EPng <$> take k (png_calls buffer))
       ++ [EStderr (png_error_text w);
           EStderr ("Failed to set PNG jump buffer" +:+ nl); EPngDestroy; EFclose],
     Ok tt).
Proof.
  intros H1 H2 H3 H4 Hk. unfold writePng. rewrite H1, H2, H3, H4.
  destruct (Nat.ltb_spec k (length (png_calls buffer))) as [_|?]; [|lia].
  unfold emits, emit. cbn [negb bind app]. reflexivity.
Qed.

Lemma png_calls_rows buffer :
  png_calls buffer
  = png_init_io
    :: png_set_IHDR 240 320 8 PNG_COLOR_TYPE_RGB PNG_INTERLACE_NONE
         PNG_TYPE_DEFAULT PNG_TYPE_DEFAULT
    :: png_write_info
    :: (png_write_row <$>
          ((fun y : nat => take 240 (drop (y * 240) buffer)) <$> seq 0 320))
    ++ [png_write_end].
Proof.
  unfold png_calls, WIDTH, HEIGHT.
  change (Z.to_nat 240) with 240%nat. change (Z.to_nat 320) with 320%nat.
  cbn [app]. rewrite <- list_fmap_compose. reflexivity.
Qed.

Lemma omap_row_of_rows (rows : list (list RGB888.t)) :
  omap row_of (EPng <$> (png_write_row <$> rows)) = rows.
Proof. induction rows as [|r rows IH]; [reflexivity|]. cbn. rewrite IH. reflexivity. Qed.

Lemma omap_call_of_calls (calls : list png_call) :
  omap call_of (EPng <$> calls) = calls.
Proof. induction calls as [|c calls IH]; [reflexivity|]. cbn. rewrite IH. reflexivity. Qed.

(** Cutting a buffer into rows of [width] pixels and gluing them back. *)
Lemma concat_rows (A : Type) (buffer : list A) (width height : nat) :
  concat ((fun y : nat => take width (drop (y * width) buffer)) <$> seq 0 height)
  = take (height * width) buffer.
Proof.
  induction height as [|h IH].
  - reflexivity.
  - rewrite seq_S, fmap_app, concat_app, IH. cbn [fmap list_fmap concat plus].
    rewrite app_nil_r, take_take_drop. f_equal. lia.
Qed.

Lemma row_lookup (A : Type) (buffer : list A) (width height y x : nat) :
  length buffer = (height * width)%nat -> (y < height)%nat -> (x < width)%nat ->
  ((fun y : nat => take width (drop (y * width) buffer)) <$> seq 0 height) !! y
    = Some (take width (drop (y * width) buffer))
  /\ length (take width (drop (y * width) buffer)) = width
  /\ take width (drop (y * width) buffer) !! x = buffer !! (y * width + x)%nat.
Proof.
  intros Hlen Hy Hx. split; [|split].
  - rewrite list_lookup_fmap, lookup_seq_lt by assumption. reflexivity.
  - rewrite length_take, length_drop, Hlen. nia.
  - rewrite lookup_take_lt, lookup_drop by assumption. reflexivity.
Qed.

(** ** The command line *)

Lemma showHelp_sticky (getopt : list (Z * string)) : forall o : Options,
  showHelp o = true -> showHelp (fold_left handle_option getopt o) = true.
Proof.
  induction getopt as [|[code arg] rest IH]; intros o Ho; [exact Ho|].
  cbn [fold_left]. apply IH. unfold handle_option.
  repeat (destruct (_ =? _); [exact Ho|]). reflexivity.
Qed.

Lemma showHelp_other (getopt : list (Z * string)) (code : Z) (arg : string) :
  In (code, arg) getopt ->
  code <> char_code "n" -> code <> char_code "d" -> code <> char_code "x" ->
  showHelp (parse_options getopt) = true.
Proof.
  intros Hin Hn Hd Hx. unfold parse_options. generalize default_options.
  induction getopt as [|got rest IH]; intros o; [destruct Hin|].
  destruct Hin as [->|Hin].
  - cbn [fold_left]. apply showHelp_sticky. unfold handle_option.
    destruct (Z.eqb_spec code (char_code "n")); [contradiction|].
    destruct (Z.eqb_spec code (char_code "d")); [contradiction|].
    destruct (Z.eqb_spec code (char_code "x")); [contradiction|].
    reflexivity.
  - cbn [fold_left]. apply IH, Hin.
Qed.

(** ** [main], branch by branch *)

Lemma bind_emits_nil {A} (k : unit -> M A) : bind (emits []) k = k tt.
Proof. unfold emits, bind. destruct (k tt) as [t r]. reflexivity. Qed.

Lemma getopt_long_stderr_only w (getopt : list (Z * string)) : forall call : nat,
  forallb is_stderr (getopt_long_stderr w call getopt) = true.
Proof.
  induction getopt as [|[code arg] rest IH]; intros call; [reflexivity|].
  cbn [getopt_long_stderr]. rewrite forallb_app, IH.
  destruct (code =? char_code "?"); reflexivity.
Qed.

Lemma getopt_long_stderr_some w (getopt : list (Z * string)) (optarg : string) :
  In (char_code "?", optarg) getopt ->
  forall call : nat, getopt_long_stderr w call getopt <> [].
Proof.
  induction getopt as [|[code arg] rest IH]; intros Hin call; [destruct Hin|].
  cbn [getopt_long_stderr]. destruct Hin as [Heq|Hin].
  - injection Heq as -> _. rewrite Z.eqb_refl. discriminate.
  - intros Hnil. apply app_eq_nil in Hnil as [_ Hnil].
    exact (IH Hin (S call) Hnil).
Qed.

Lemma getopt_long_stderr_none w (getopt : list (Z * string)) :
  (forall optarg : string, ~ In (char_code "?", optarg) getopt) ->
  forall call : nat, getopt_long_stderr w call getopt = [].
Proof.
  induction getopt as [|[code arg] rest IH]; intros Hno call; [reflexivity|].
  cbn [getopt_long_stderr].
  destruct (Z.eqb_spec code (char_code "?")) as [->|_].
  - destruct (Hno arg). left. reflexivity.
  - rewrite IH; [reflexivity|]. intros a Hin. apply (Hno a). right. exact Hin.
Qed.

(** Without a ['?'] among the values returned, [getopt_long] has written
    nothing; this is so whenever help is not shown. *)
Lemma getopt_quiet w (getopt : list (Z * string)) :
  showHelp (parse_options getopt) = false ->
  forall call : nat, getopt_long_stderr w call getopt = [].
Proof.
  intros Hhelp. apply getopt_long_stderr_none. intros optarg Hin.
  rewrite (showHelp_other getopt (char_code "?") optarg Hin) in Hhelp;
    discriminate.
Qed.

Lemma main_help w fuel getopt :
  showHelp (parse_options getopt) = true ->
  main w fuel getopt
  = (getopt_long_stderr w 0 getopt ++ [EStdout (usage w)], Ok 0).
Proof. intros H. unfold main. rewrite H. reflexivity. Qed.

Lemma main_no_name w fuel getopt :
  showHelp (parse_options getopt) = false ->
  (forall path,
     snd (generateFileName w fuel (directory (parse_options getopt))
            (baseName (parse_options getopt))
            (includeDate (parse_options getopt))) <> Ok path) ->
  fst (main w fuel getopt)
  = fst (generateFileName w fuel (directory (parse_options getopt))
           (baseName (parse_options getopt)) (includeDate (parse_options getopt)))
  /\ forall status, snd (main w fuel getopt) <> Ok status.
Proof.
  intros Hhelp Hgen. unfold main. rewrite (getopt_quiet w getopt Hhelp 0), bind_emits_nil, Hhelp.
  cbv zeta.
  destruct (generateFileName _ _ _ _ _) as [t [path| |]]; cbn [bind fst snd] in *.
  - destruct (Hgen path). reflexivity.
  - split; [reflexivity|discriminate].
  - split; [reflexivity|discriminate].
Qed.

Lemma main_no_device w fuel getopt t path :
  showHelp (parse_options getopt) = false ->
  generateFileName w fuel (directory (parse_options getopt))
    (baseName (parse_options getopt)) (includeDate (parse_options getopt))
  = (t, Ok path) ->
  device w = None ->
  main w fuel getopt
  = (t ++ [EOpenDevice FRAME_BUF_PATH; EStderr ("Failed to open frame buffer" +:+ nl)],
     Ok 1).
Proof.
  intros Hhelp Hgen Hdev. unfold main. rewrite (getopt_quiet w getopt Hhelp 0), bind_emits_nil, Hhelp.
  cbv zeta.
  rewrite Hgen, Hdev. reflexivity.
Qed.

Lemma main_short_read w fuel getopt t path stream :
  showHelp (parse_options getopt) = false ->
  generateFileName w fuel (directory (parse_options getopt))
    (baseName (parse_options getopt)) (includeDate (parse_options getopt))
  = (t, Ok path) ->
  device w = Some stream ->
  Z.of_nat (length stream) < WIDTH * HEIGHT * 2 ->
  main w fuel getopt
  = (t ++ [EOpenDevice FRAME_BUF_PATH; EReadDevice (WIDTH * HEIGHT * 2);
           EStderr ("Failed to read frame buffer" +:+ nl)],
     Ok 1).
Proof.
  intros Hhelp Hgen Hdev Hlen. unfold main. rewrite (getopt_quiet w getopt Hhelp 0), bind_emits_nil, Hhelp.
  cbv zeta.
  rewrite Hgen, Hdev.
  destruct (Z.ltb_spec (Z.of_nat (length stream)) (WIDTH * HEIGHT * 2)) as [_|?]; [|lia].
  reflexivity.
Qed.

Lemma main_encode w fuel getopt t path stream :
  showHelp (parse_options getopt) = false ->
  generateFileName w fuel (directory (parse_options getopt))
    (baseName (parse_options getopt)) (includeDate (parse_options getopt))
  = (t, Ok path) ->
  device w = Some stream ->
  WIDTH * HEIGHT * 2 <= Z.of_nat (length stream) ->
  main w fuel getopt
  = (t ++ [EOpenDevice FRAME_BUF_PATH; EReadDevice (WIDTH * HEIGHT * 2)]
       ++ fst (writePng w path
                 (convertRgb565ToRgb888
                    (pixels_of_bytes (take (Z.to_nat (WIDTH * HEIGHT * 2)) stream))))
       ++ [EStdout ("Screenshot saved as " +:+ path +:+ nl)],
     Ok 0).
Proof.
  intros Hhelp Hgen Hdev Hlen. unfold main. rewrite (getopt_quiet w getopt Hhelp 0), bind_emits_nil, Hhelp.
  cbv zeta.
  rewrite Hgen, Hdev.
  destruct (Z.ltb_spec (Z.of_nat (length stream)) (WIDTH * HEIGHT * 2)) as [?|_]; [lia|].
  unfold emit, ret. cbn [bind].
  match goal with
  | |- context [writePng w path ?b] =>
      generalize (writePng_returns w path b); destruct (writePng w path b) as [tw rw]
  end.
  cbn [snd]. intros ->. cbn [bind app fst]. reflexivity.
Qed.

(** ** Bit-fields *)

Lemma bitfield_testbit offset width unit i :
  0 <= offset -> 0 <= i < width ->
  Z.testbit (RGB565.bitfield offset width unit) i = Z.testbit unit (offset + i).
Proof.
  intros Hoff Hi. unfold RGB565.bitfield.
  rewrite Z.land_spec, Z.shiftr_spec, Z.ones_spec_low by lia.
  rewrite andb_true_r. f_equal. lia.
Qed.

Lemma bitfield_div_mod offset width unit :
  0 <= offset -> 0 <= width ->
  RGB565.bitfield offset width unit = (unit / 2 ^ offset) mod 2 ^ width.
Proof.
  intros Hoff Hw. unfold RGB565.bitfield.
  rewrite Z.land_ones, Z.shiftr_div_pow2 by assumption. reflexivity.
Qed.

Lemma rgb565_recompose p :
  0 <= p < 65536 ->
  p = RGB565.blue p + 32 * RGB565.green p + 2048 * RGB565.red p.
Proof.
  intros Hp. unfold RGB565.blue, RGB565.green, RGB565.red.
  rewrite !bitfield_div_mod by lia.
  change (2 ^ 0) with 1. change (2 ^ 5) with 32. change (2 ^ 6) with 64.
  change (2 ^ 11) with (32 * 64).
  rewrite Z.div_1_r, <- Z.div_div by lia.
  assert (p / 32 / 64 < 32).
  { apply Z.div_lt_upper_bound; [lia|]. apply Z.div_lt_upper_bound; lia. }
  assert (0 <= p / 32 / 64) by (apply Z.div_pos; [apply Z.div_pos|]; lia).
  rewrite (Z.mod_small (p / 32 / 64) 32) by lia.
  pose proof (Z.div_mod p 32 ltac:(lia)).
  pose proof (Z.div_mod (p / 32) 64 ltac:(lia)).
  lia.
Qed.

Lemma pixels_of_bytes_range (bytes : list Byte.byte) :
  Forall (fun p => 0 <= p < 65536) (pixels_of_bytes bytes).
Proof.
  induction bytes as [bytes IH] using (induction_ltof1 _ (@length _)).
  unfold ltof in IH.
  destruct bytes as [|b0 [|b1 rest]]; [constructor..|].
  cbn [pixels_of_bytes]. constructor.
  - unfold RGB565.of_bytes.
    pose proof (Byte.to_N_bounded b0). pose proof (Byte.to_N_bounded b1). lia.
  - apply IH. simpl. lia.
Qed.

(** ** Events of a trace *)

Lemma stat_only_no_other (t : list event) :
  forallb is_stat t = true ->
  existsb is_fopen t = false /\ existsb is_device t = false
  /\ written_rows t = [] /\ diagnostics t = [].
Proof.
  induction t as [|e t IH]; [repeat split; reflexivity|].
  cbn [forallb]. intros [He Ht]%andb_prop.
  destruct (IH Ht) as (H1 & H2 & H3 & H4).
  destruct e; try discriminate He. cbn. rewrite H1, H2.
  unfold written_rows, diagnostics in *. rewrite H3, H4.
  repeat split; reflexivity.
Qed.

Lemma trace_calls filename (calls : list png_call) :
  png_calls_of (EFopen filename :: (EPng <$> calls) ++ [EPngDestroy; EFclose])
  = calls.
Proof.
  unfold png_calls_of. cbn [omap list_omap call_of].
  rewrite omap_app, omap_call_of_calls. cbn. apply app_nil_r.
Qed.

Lemma trace_rows filename (header : png_call) (geometry : png_call)
    (rows : list (list RGB888.t)) :
  row_of (EPng header) = None -> row_of (EPng geometry) = None ->
  written_rows
    (EFopen filename
       :: (EPng <$> header :: geometry :: png_write_info
                      :: (png_write_row <$> rows) ++ [png_write_end])
       ++ [EPngDestroy; EFclose])
  = rows.
Proof.
  intros Hh Hg. unfold written_rows.
  rewrite !fmap_cons, fmap_app. cbn [omap list_omap app].
  rewrite Hh, Hg. cbn [row_of].
  rewrite <- app_assoc, omap_app, omap_row_of_rows. cbn. apply app_nil_r.
Qed.

(** ** When [main] ends in the exception *)


(** ** The pipeline after a failed capture or a failed write *)

Lemma main_short_read_trace w fuel getopt stream :
  showHelp (parse_options getopt) = false ->
  device w = Some stream ->
  Z.of_nat (length stream) < WIDTH * HEIGHT * 2 ->
  existsb is_fopen (fst (main w fuel getopt)) = false
  /\ written_rows (fst (main w fuel getopt)) = [].
Proof.
  intros Hhelp Hdev Hlen.
  destruct (generateFileName_safe w fuel (directory (parse_options getopt))
              (baseName (parse_options getopt))
              (includeDate (parse_options getopt))) as [_ Hstat].
  destruct (generateFileName w fuel (directory (parse_options getopt))
              (baseName (parse_options getopt))
              (includeDate (parse_options getopt))) as [t r] eqn:Hgen.
  cbn [fst] in Hstat.
  destruct (stat_only_no_other t Hstat) as (Hfopen & _ & Hrows & _).
  destruct r as [path|what|].
  - rewrite (main_short_read w fuel getopt t path stream) by assumption.
    cbn [fst]. unfold written_rows in *.
    rewrite existsb_app, omap_app, Hfopen, Hrows. split; reflexivity.
  - destruct (main_no_name w fuel getopt Hhelp) as [-> _];
      rewrite Hgen; [discriminate|]. split; assumption.
  - destruct (main_no_name w fuel getopt Hhelp) as [-> _];
      rewrite Hgen; [discriminate|]. split; assumption.
Qed.

Lemma main_unwritable w fuel getopt t path stream :
  showHelp (parse_options getopt) = false ->
  generateFileName w fuel (directory (parse_options getopt))
    (baseName (parse_options getopt)) (includeDate (parse_options getopt))
  = (t, Ok path) ->
  device w = Some stream ->
  WIDTH * HEIGHT * 2 <= Z.of_nat (length stream) ->
  fopen_ok w path = false ->
  main w fuel getopt
  = (t ++ [EOpenDevice FRAME_BUF_PATH; EReadDevice (WIDTH * HEIGHT * 2);
           EFopen path; EStderr ("Failed to open file for writing" +:+ nl);
           EStdout ("Screenshot saved as " +:+ path +:+ nl)],
     Ok 0).
Proof.
  intros Hhelp Hgen Hdev Hlen Hopen.
  rewrite (main_encode w fuel getopt t path stream) by assumption.
  rewrite writePng_unwritable by exact Hopen. reflexivity.
Qed.

Lemma main_encoder_error w fuel getopt t path stream (k : nat) :
  showHelp (parse_options getopt) = false ->
  generateFileName w fuel (directory (parse_options getopt))
    (baseName (parse_options getopt)) (includeDate (parse_options getopt))
  = (t, Ok path) ->
  device w = Some stream ->
  WIDTH * HEIGHT * 2 <= Z.of_nat (length stream) ->
  fopen_ok w path = true -> png_write_struct_ok w = true ->
  png_info_struct_ok w = true -> png_error_at w = Some k -> (k < 324)%nat ->
  snd (main w fuel getopt) = Ok 0
  /\ In ("Failed to set PNG jump buffer" +:+ nl) (diagnostics (fst (main w fuel getopt))).
Proof.
  intros Hhelp Hgen Hdev Hlen H1 H2 H3 H4 Hk.
  rewrite (main_encode w fuel getopt t path stream) by assumption.
  split; [reflexivity|]. cbn [fst].
  assert (Hcalls : (k < length (png_calls
                                  (convertRgb565ToRgb888
                                     (pixels_of_bytes
                                        (take (Z.to_nat (WIDTH * HEIGHT * 2)) stream)))))%nat).
  { rewrite png_calls_rows. cbn [length].
    rewrite length_app, !length_fmap, length_seq. cbn [length]. lia. }
  rewrite (writePng_encoder_error w path _ k H1 H2 H3 H4 Hcalls).
  cbn [fst]. unfold diagnostics. rewrite !omap_app.
  apply in_or_app. right. apply in_or_app. right.
  apply in_or_app. left.
  change (EFopen path :: ?l) with ([EFopen path] ++ l).
  rewrite !omap_app. apply in_or_app. right. apply in_or_app. right.
  right. left. reflexivity.
Qed.

(** ** Help text and silent traces *)

Lemma stderr_only_silent (t : list event) :
  forallb is_stderr t = true ->
  printed t = [] /\ opened_files t = [] /\ written_rows t = []
  /\ examined t = []
  /\ existsb is_stat t = false /\ existsb is_device t = false
  /\ existsb is_fopen t = false.
Proof.
  induction t as [|e t IH]; [repeat split; reflexivity|].
  cbn [forallb]. intros [He Ht]%andb_prop.
  destruct (IH Ht) as (H1 & H2 & H3 & H4 & H5 & H6 & H7).
  destruct e; try discriminate He.
  unfold printed, opened_files, written_rows, examined in *. cbn.
  rewrite H1, H2, H3, H4, H5, H6, H7. repeat split; reflexivity.
Qed.


(** * The claims *)

(** C1: for every pixel of the snapshot, the conversion stores in each
    8-bit channel the floor of [channel * 255 / max], with [max = 31] for red
    and blue and [max = 63] for green; a channel at 0 gives 0 and a channel at
    its maximum gives 255. *)
Theorem convertRgb565ToRgb888_floor (buffer565 : list RGB565.t) (i : nat)
    (p : RGB565.t) :
  length buffer565 = Z.to_nat (WIDTH * HEIGHT) ->
  buffer565 !! i = Some p ->
  exists q : RGB888.t,
    convertRgb565ToRgb888 buffer565 !! i = Some q
    /\ RGB888.red q = RGB565.red p * 255 / 31
    /\ RGB888.green q = RGB565.green p * 255 / 63
    /\ RGB888.blue q = RGB565.blue p * 255 / 31
    /\ (RGB565.red p = 0 -> RGB888.red q = 0)
    /\ (RGB565.red p = 31 -> RGB888.red q = 255)
    /\ (RGB565.green p = 0 -> RGB888.green q = 0)
    /\ (RGB565.green p = 63 -> RGB888.green q = 255)
    /\ (RGB565.blue p = 0 -> RGB888.blue q = 0)
    /\ (RGB565.blue p = 31 -> RGB888.blue q = 255).
Proof.
  intros Hlen Hp. exists (convertPixel p).
  unfold convertRgb565ToRgb888. rewrite convert_loop_map by exact Hlen.
  split.
  { change (map convertPixel buffer565) with (convertPixel <$> buffer565).
    rewrite list_lookup_fmap, Hp. reflexivity. }
  rewrite convertPixel_floor. cbn [RGB888.red RGB888.green RGB888.blue].
  repeat split; try reflexivity; intros ->; reflexivity.
Qed.

Lemma convertRgb565ToRgb888_floor_witness :
  exists q : RGB888.t,
    convertRgb565ToRgb888 (replicate (Z.to_nat (WIDTH * HEIGHT)) 63519) !! 7%nat
      = Some q
    /\ RGB888.red q = RGB565.red 63519 * 255 / 31
    /\ RGB888.green q = RGB565.green 63519 * 255 / 63
    /\ RGB888.blue q = RGB565.blue 63519 * 255 / 31
    /\ (RGB565.red 63519 = 0 -> RGB888.red q = 0)
    /\ (RGB565.red 63519 = 31 -> RGB888.red q = 255)
    /\ (RGB565.green 63519 = 0 -> RGB888.green q = 0)
    /\ (RGB565.green 63519 = 63 -> RGB888.green q = 255)
    /\ (RGB565.blue 63519 = 0 -> RGB888.blue q = 0)
    /\ (RGB565.blue 63519 = 31 -> RGB888.blue q = 255).
Proof.
  apply (convertRgb565ToRgb888_floor
           (replicate (Z.to_nat (WIDTH * HEIGHT)) 63519) 7 63519).
  - apply length_replicate.
  - apply lookup_replicate_2. unfold WIDTH, HEIGHT. lia.
Defined.

(** C4: the conversion is monotonic non-decreasing in every channel: for
    channel values [a <= b] within the channel's range the converted values
    are ordered the same way, and so are the channels of two converted
    pixels. *)
Theorem conversion_monotone (a b : Z) :
  0 <= a -> a <= b ->
  (b <= 31 -> rescale a RED_MAX <= rescale b RED_MAX
              /\ rescale a BLUE_MAX <= rescale b BLUE_MAX)
  /\ (b <= 63 -> rescale a GREEN_MAX <= rescale b GREEN_MAX)
  /\ (forall p q : RGB565.t,
        (RGB565.red p = a -> RGB565.red q = b ->
         RGB888.red (convertPixel p) <= RGB888.red (convertPixel q))
        /\ (RGB565.green p = a -> RGB565.green q = b ->
            RGB888.green (convertPixel p) <= RGB888.green (convertPixel q))
        /\ (RGB565.blue p = a -> RGB565.blue q = b ->
            RGB888.blue (convertPixel p) <= RGB888.blue (convertPixel q))).
Proof.
  intros Ha Hab. unfold RED_MAX, GREEN_MAX, BLUE_MAX. split; [|split].
  - intros Hb. split; apply rescale_mono; lia.
  - intros Hb. apply rescale_mono; lia.
  - intros p q. unfold convertPixel, RED_MAX, GREEN_MAX, BLUE_MAX.
    cbn [RGB888.red RGB888.green RGB888.blue].
    pose proof (red_range q). pose proof (green_range q). pose proof (blue_range q).
    repeat split; intros Hp Hq; rewrite Hp, Hq; apply rescale_mono; lia.
Qed.

Lemma conversion_monotone_witness :
  (17 <= 31 -> rescale 16 RED_MAX <= rescale 17 RED_MAX
               /\ rescale 16 BLUE_MAX <= rescale 17 BLUE_MAX)
  /\ (17 <= 63 -> rescale 16 GREEN_MAX <= rescale 17 GREEN_MAX)
  /\ (forall p q : RGB565.t,
        (RGB565.red p = 16 -> RGB565.red q = 17 ->
         RGB888.red (convertPixel p) <= RGB888.red (convertPixel q))
        /\ (RGB565.green p = 16 -> RGB565.green q = 17 ->
            RGB888.green (convertPixel p) <= RGB888.green (convertPixel q))
        /\ (RGB565.blue p = 16 -> RGB565.blue q = 17 ->
            RGB888.blue (convertPixel p) <= RGB888.blue (convertPixel q))).
Proof. apply (conversion_monotone 16 17); lia. Defined.

(** C9: in every 16-bit packed pixel the blue channel is bits 0-4, the
    green channel bits 5-10 and the red channel bits 11-15; the three fields
    are within 5, 6 and 5 bits and together make up the whole value. *)
Theorem rgb565_bit_layout (p : RGB565.t) :
  0 <= p < 65536 ->
  (forall i, 0 <= i < 5 -> Z.testbit (RGB565.blue p) i = Z.testbit p i)
  /\ (forall i, 0 <= i < 6 -> Z.testbit (RGB565.green p) i = Z.testbit p (5 + i))
  /\ (forall i, 0 <= i < 5 -> Z.testbit (RGB565.red p) i = Z.testbit p (11 + i))
  /\ 0 <= RGB565.blue p < 32
  /\ 0 <= RGB565.green p < 64
  /\ 0 <= RGB565.red p < 32
  /\ p = RGB565.blue p + 32 * RGB565.green p + 2048 * RGB565.red p.
Proof.
  intros Hp.
  pose proof (red_range p). pose proof (green_range p). pose proof (blue_range p).
  repeat split; try lia.
  - intros i Hi. unfold RGB565.blue. rewrite bitfield_testbit by lia. reflexivity.
  - intros i Hi. unfold RGB565.green. apply bitfield_testbit; lia.
  - intros i Hi. unfold RGB565.red. apply bitfield_testbit; lia.
  - apply rgb565_recompose, Hp.
Qed.

Lemma rgb565_bit_layout_witness :
  (forall i, 0 <= i < 5 -> Z.testbit (RGB565.blue 45678) i = Z.testbit 45678 i)
  /\ (forall i, 0 <= i < 6 ->
        Z.testbit (RGB565.green 45678) i = Z.testbit 45678 (5 + i))
  /\ (forall i, 0 <= i < 5 ->
        Z.testbit (RGB565.red 45678) i = Z.testbit 45678 (11 + i))
  /\ 0 <= RGB565.blue 45678 < 32
  /\ 0 <= RGB565.green 45678 < 64
  /\ 0 <= RGB565.red 45678 < 32
  /\ 45678 = RGB565.blue 45678 + 32 * RGB565.green 45678 + 2048 * RGB565.red 45678.
Proof. apply (rgb565_bit_layout 45678). lia. Defined.




(** C5: with the timestamp disabled, no directory and no file of the
    candidate name, the generator returns exactly the base name followed by
    [.png], after a single look at the file system. *)
Theorem generateFileName_plain (w : World) (baseName : string) (fuel : nat) :
  baseName +:+ ".png" ∉ fs w ->
  generateFileName w (S fuel) "" baseName false
  = ([EStat (baseName +:+ ".png")], Ok (baseName +:+ ".png")).
Proof.
  intros Hfree. change (S fuel) with (1 + fuel)%nat.
  rewrite (generateFileName_first_free w "" baseName false 0 fuel).
  - unfold base_path. cbn [bool_decide decide_rel]. unfold name_of.
    change ("" +:+ ?s) with s. rewrite !str_app_nil_r. reflexivity.
  - intros j Hj. lia.
  - unfold base_path, name_of. change ("" +:+ ?s) with s.
    rewrite str_app_nil_r. exact Hfree.
  - unfold INT_MAX. lia.
Qed.

Lemma generateFileName_plain_witness :
  generateFileName (world_of ∅ None true) 1 "" "screenshot" false
  = ([EStat "screenshot.png"], Ok "screenshot.png").
Proof.
  apply (generateFileName_plain (world_of ∅ None true) "screenshot" 0).
  decide_by_evaluation.
Defined.




(** C7: handed a full image and meeting no error, the encoder declares
    240 x 320, 8 bits per channel, RGB without alpha, no interlacing, and
    writes exactly 320 scanlines, top to bottom, scanline [y] being the 240
    consecutive pixels from index [y * 240] of the row-major buffer. *)
Theorem writePng_scanlines (w : World) (filename : string)
    (buffer : list RGB888.t) :
  fopen_ok w filename = true ->
  png_write_struct_ok w = true ->
  png_info_struct_ok w = true ->
  png_error_at w = None ->
  length buffer = Z.to_nat (WIDTH * HEIGHT) ->
  exists rows : list (list RGB888.t),
    png_calls_of (trace (writePng w filename buffer))
    = png_init_io
      :: png_set_IHDR 240 320 8 PNG_COLOR_TYPE_RGB PNG_INTERLACE_NONE
           PNG_TYPE_DEFAULT PNG_TYPE_DEFAULT
      :: png_write_info
      :: (png_write_row <$> rows) ++ [png_write_end]
    /\ written_rows (trace (writePng w filename buffer)) = rows
    /\ length rows = 320%nat
    /\ concat rows = buffer
    /\ forall y x : nat, (y < 320)%nat -> (x < 240)%nat ->
         exists row : list RGB888.t,
           rows !! y = Some row
           /\ length row = 240%nat
           /\ row !! x = buffer !! (y * 240 + x)%nat.
Proof.
  intros Hopen Hws Hinfo Herr Hlen.
  assert (Hsize : length buffer = (320 * 240)%nat).
  { rewrite Hlen. unfold WIDTH, HEIGHT. lia. }
  exists ((fun y : nat => take 240 (drop (y * 240) buffer)) <$> seq 0 320).
  unfold trace. rewrite writePng_complete by assumption. cbn [fst].
  rewrite png_calls_rows.
  split; [apply trace_calls|].
  split; [apply trace_rows; reflexivity|].
  split; [rewrite length_fmap, length_seq; reflexivity|].
  split.
  - rewrite concat_rows. apply take_ge. lia.
  - intros y x Hy Hx.
    destruct (row_lookup _ buffer 240 320 y x Hsize Hy Hx) as (Hrow & Hwidth & Hpix).
    exists (take 240 (drop (y * 240) buffer)).
    split; [exact Hrow|]. split; [exact Hwidth|exact Hpix].
Qed.

Lemma writePng_scanlines_witness :
  exists rows : list (list RGB888.t),
    png_calls_of
      (trace (writePng (world_of ∅ None true) "shot.png"
                (replicate (Z.to_nat (WIDTH * HEIGHT)) (RGB888.mk 8 16 24))))
    = png_init_io
      :: png_set_IHDR 240 320 8 PNG_COLOR_TYPE_RGB PNG_INTERLACE_NONE
           PNG_TYPE_DEFAULT PNG_TYPE_DEFAULT
      :: png_write_info
      :: (png_write_row <$> rows) ++ [png_write_end]
    /\ written_rows
         (trace (writePng (world_of ∅ None true) "shot.png"
                   (replicate (Z.to_nat (WIDTH * HEIGHT)) (RGB888.mk 8 16 24))))
       = rows
    /\ length rows = 320%nat
    /\ concat rows = replicate (Z.to_nat (WIDTH * HEIGHT)) (RGB888.mk 8 16 24)
    /\ forall y x : nat, (y < 320)%nat -> (x < 240)%nat ->
         exists row : list RGB888.t,
           rows !! y = Some row
           /\ length row = 240%nat
           /\ row !! x
              = replicate (Z.to_nat (WIDTH * HEIGHT)) (RGB888.mk 8 16 24)
                  !! (y * 240 + x)%nat.
Proof.
  apply (writePng_scanlines (world_of ∅ None true) "shot.png"
           (replicate (Z.to_nat (WIDTH * HEIGHT)) (RGB888.mk 8 16 24)));
    [reflexivity | reflexivity | reflexivity | reflexivity
    | apply length_replicate].
Defined.

(** C10 (as amended): an invocation in which [getopt_long] reports an
    unrecognized option (it returns ['?']) prints the usage text, all six
    lines of it, on the output stream and exits with status 0, as a help
    request does; no file name is looked up, the device is not touched, no
    file is opened.  Unlike a help request, the error stream first receives
    the line [getopt_long] wrote for each such option. *)
Theorem unrecognized_option_is_help (w : World) (fuel : nat)
    (getopt : list (Z * string)) (optarg : string) :
  In (char_code "?", optarg) getopt ->
  main w fuel getopt
  = (getopt_long_stderr w 0 getopt
       ++ [EStdout
             ("Usage: " +:+ argv_text w +:+ " [options]" +:+ nl
               +:+ "Options:" +:+ nl
               +:+ "  -n, --name      Base name for the screenshot file (default: screenshot)" +:+ nl
               +:+ "  -d, --directory Directory to save the screenshot (default: current directory)" +:+ nl
               +:+ "  -x, --no-date   Do not include the date in the filename" +:+ nl
               +:+ "  -h, --help      Show this help message" +:+ nl)],
     Ok 0)
  /\ getopt_long_stderr w 0 getopt <> []
  /\ forallb is_stderr (getopt_long_stderr w 0 getopt) = true
  /\ printed (trace (main w fuel getopt))
     = printed (trace (main w fuel [(char_code "h", "")]))
  /\ outcome (main w fuel getopt) = outcome (main w fuel [(char_code "h", "")])
  /\ existsb is_stat (trace (main w fuel getopt)) = false
  /\ existsb is_device (trace (main w fuel getopt)) = false
  /\ existsb is_fopen (trace (main w fuel getopt)) = false.
Proof.
  intros Hin.
  assert (Hhelp : showHelp (parse_options getopt) = true).
  { apply (showHelp_other getopt (char_code "?") optarg Hin); discriminate. }
  pose proof (getopt_long_stderr_only w getopt 0) as Honly.
  destruct (stderr_only_silent _ Honly) as (Hp & _ & _ & _ & Hs & Hd & Hf).
  rewrite (main_help w fuel getopt Hhelp).
  split; [reflexivity|].
  split; [apply (getopt_long_stderr_some w getopt optarg Hin)|].
  split; [exact Honly|].
  unfold trace, outcome, printed in *. cbn [fst snd].
  rewrite omap_app, !existsb_app, Hp, Hs, Hd, Hf.
  rewrite (main_help w fuel [(char_code "h", "")]) by reflexivity.
  repeat split; reflexivity.
Qed.

Lemma unrecognized_option_is_help_witness :
  main (world_of ∅ None true) 4
    [(char_code "n", "shot"); (char_code "?", ""); (char_code "x", "")]
  = (getopt_long_stderr (world_of ∅ None true) 0
       [(char_code "n", "shot"); (char_code "?", ""); (char_code "x", "")]
       ++ [EStdout
             ("Usage: " +:+ argv_text (world_of ∅ None true) +:+ " [options]" +:+ nl
               +:+ "Options:" +:+ nl
               +:+ "  -n, --name      Base name for the screenshot file (default: screenshot)" +:+ nl
               +:+ "  -d, --directory Directory to save the screenshot (default: current directory)" +:+ nl
               +:+ "  -x, --no-date   Do not include the date in the filename" +:+ nl
               +:+ "  -h, --help      Show this help message" +:+ nl)],
     Ok 0)
  /\ getopt_long_stderr (world_of ∅ None true) 0
       [(char_code "n", "shot"); (char_code "?", ""); (char_code "x", "")] <> []
  /\ forallb is_stderr
       (getopt_long_stderr (world_of ∅ None true) 0
          [(char_code "n", "shot"); (char_code "?", ""); (char_code "x", "")])
     = true
  /\ printed
       (trace (main (world_of ∅ None true) 4
                 [(char_code "n", "shot"); (char_code "?", ""); (char_code "x", "")]))
     = printed (trace (main (world_of ∅ None true) 4 [(char_code "h", "")]))
  /\ outcome
       (main (world_of ∅ None true) 4
          [(char_code "n", "shot"); (char_code "?", ""); (char_code "x", "")])
     = outcome (main (world_of ∅ None true) 4 [(char_code "h", "")])
  /\ existsb is_stat
       (trace (main (world_of ∅ None true) 4
                 [(char_code "n", "shot"); (char_code "?", ""); (char_code "x", "")]))
     = false
  /\ existsb is_device
       (trace (main (world_of ∅ None true) 4
                 [(char_code "n", "shot"); (char_code "?", ""); (char_code "x", "")]))
     = false
  /\ existsb is_fopen
       (trace (main (world_of ∅ None true) 4
                 [(char_code "n", "shot"); (char_code "?", ""); (char_code "x", "")]))
     = false.
Proof.
  apply (unrecognized_option_is_help (world_of ∅ None true) 4
           [(char_code "n", "shot"); (char_code "?", ""); (char_code "x", "")] "").
  simpl. right. left. reflexivity.
Defined.

(** C10 fails as stated: the run with an unrecognized option is not the run
    of a help request; its error stream carries the line written by
    [getopt_long], that of a help request carries nothing. *)
Lemma unrecognized_option_diagnostic :
  diagnostics (trace (main (world_of ∅ None true) 1 [(char_code "?", "")]))
  = ["screenshot: invalid option -- 'z'" +:+ nl]
  /\ diagnostics (trace (main (world_of ∅ None true) 1 [(char_code "h", "")]))
     = [].
Proof. split; reflexivity. Qed.

(** C6: when the device delivers fewer than [width * height * 2] bytes, the
    invocation opens no output file and hands no scanline to the encoder,
    however it ends; and unless the file system holds [INT_MAX] paths or
    more, it ends right after the read, with the read diagnostic on the error
    stream and exit status 1. *)
Theorem short_read_fails (w : World) (getopt : list (Z * string))
    (stream : list Byte.byte) :
  showHelp (parse_options getopt) = false ->
  device w = Some stream ->
  Z.of_nat (length stream) < WIDTH * HEIGHT * 2 ->
  (forall fuel : nat,
     existsb is_fopen (trace (main w fuel getopt)) = false
     /\ written_rows (trace (main w fuel getopt)) = [])
  /\ (Z.of_nat (size (fs w)) < INT_MAX ->
      exists (rounds : nat) (names : list event),
        forallb is_stat names = true
        /\ forall fuel : nat,
             main w (rounds + fuel) getopt
             = (names ++ [EOpenDevice FRAME_BUF_PATH;
                          EReadDevice (WIDTH * HEIGHT * 2);
                          EStderr ("Failed to read frame buffer" +:+ nl)],
                Ok 1)).
Proof.
  intros Hhelp Hdev Hlen. split.
  - intros fuel. apply (main_short_read_trace w fuel getopt stream); assumption.
  - intros Hsize.
    destruct (generateFileName_returns w (directory (parse_options getopt))
                (baseName (parse_options getopt))
                (includeDate (parse_options getopt)) Hsize)
      as (k & _ & _ & Hrun).
    exists (S k).
    exists (EStat <$>
              (name_of (base_path w (directory (parse_options getopt))
                          (baseName (parse_options getopt))
                          (includeDate (parse_options getopt)))
                 <$> seq 0 (S k))).
    split.
    + pose proof (generateFileName_safe w (S k + 0)
                    (directory (parse_options getopt))
                    (baseName (parse_options getopt))
                    (includeDate (parse_options getopt))) as [_ Hstat].
      rewrite Hrun in Hstat. exact Hstat.
    + intros fuel.
      eapply (main_short_read w (S k + fuel) getopt);
        [exact Hhelp|apply Hrun|exact Hdev|exact Hlen].
Qed.

Lemma short_read_fails_witness :
  (forall fuel : nat,
     existsb is_fopen
       (trace (main (world_of {[ "screenshot.png" ]}
                       (Some (replicate 1000 Byte.x00)) true)
                 fuel [(char_code "x", "")])) = false
     /\ written_rows
          (trace (main (world_of {[ "screenshot.png" ]}
                          (Some (replicate 1000 Byte.x00)) true)
                    fuel [(char_code "x", "")])) = [])
  /\ (Z.of_nat (size (fs (world_of {[ "screenshot.png" ]}
                            (Some (replicate 1000 Byte.x00)) true))) < INT_MAX ->
      exists (rounds : nat) (names : list event),
        forallb is_stat names = true
        /\ forall fuel : nat,
             main (world_of {[ "screenshot.png" ]}
                     (Some (replicate 1000 Byte.x00)) true)
               (rounds + fuel) [(char_code "x", "")]
             = (names ++ [EOpenDevice FRAME_BUF_PATH;
                          EReadDevice (WIDTH * HEIGHT * 2);
                          EStderr ("Failed to read frame buffer" +:+ nl)],
                Ok 1)).
Proof.
  apply (short_read_fails
           (world_of {[ "screenshot.png" ]} (Some (replicate 1000 Byte.x00)) true)
           [(char_code "x", "")] (replicate 1000 Byte.x00)).
  - reflexivity.
  - reflexivity.
  - rewrite length_replicate. unfold WIDTH, HEIGHT. lia.
Defined.

(** C2 does not hold of the write step: with a destination that cannot be
    opened, [writePng] prints its diagnostic and returns, and [main] goes on
    to announce the screenshot and to exit with status 0. *)
Theorem unwritable_destination_exits_0 :
  main (world_of ∅ (Some (replicate (Z.to_nat (WIDTH * HEIGHT * 2)) Byte.x00))
          false)
    1 [(char_code "x", "")]
  = ([EStat "screenshot.png";
      EOpenDevice "/dev/fb0";
      EReadDevice 153600;
      EFopen "screenshot.png";
      EStderr ("Failed to open file for writing" +:+ nl);
      EStdout ("Screenshot saved as screenshot.png" +:+ nl)],
     Ok 0).
Proof.
  rewrite (main_unwritable _ 1 _ [EStat "screenshot.png"] "screenshot.png"
             (replicate (Z.to_nat (WIDTH * HEIGHT * 2)) Byte.x00)).
  - reflexivity.
  - reflexivity.
  - vm_compute. reflexivity.
  - reflexivity.
  - rewrite length_replicate. unfold WIDTH, HEIGHT. lia.
  - reflexivity.
Qed.


(** * Further properties of the code *)

(** ** Conversion of whole buffers *)

Lemma rescale_strict a b max :
  0 < max <= 255 -> 0 <= a -> a < b -> b <= max -> rescale a max < rescale b max.
Proof.
  intros Hmax Ha Hab Hb.
  destruct (rescale_floor a max) as [-> _]; [lia..|].
  destruct (rescale_floor b max) as [-> _]; [lia..|].
  apply Z.lt_le_trans with ((a * 255 + 1 * max) / max).
  - rewrite Z.div_add by lia. lia.
  - apply Z.div_le_mono; lia.
Qed.

Lemma rescale_inj a b max :
  0 < max <= 255 -> 0 <= a <= max -> 0 <= b <= max ->
  rescale a max = rescale b max -> a = b.
Proof.
  intros Hmax Ha Hb Heq.
  destruct (Z.lt_trichotomy a b) as [Hlt|[->|Hgt]]; [|reflexivity|].
  - pose proof (rescale_strict a b max). lia.
  - pose proof (rescale_strict b a max). lia.
Qed.

(** X1: the conversion reads the first [WIDTH * HEIGHT] pixels of its
    argument and converts them one by one, in place: the result has exactly
    [WIDTH * HEIGHT] pixels and pixel [i] is the conversion of source pixel
    [i]. *)
Theorem convertRgb565ToRgb888_pointwise (buffer565 : list RGB565.t) :
  (Z.to_nat (WIDTH * HEIGHT) <= length buffer565)%nat ->
  convertRgb565ToRgb888 buffer565
  = convertPixel <$> take (Z.to_nat (WIDTH * HEIGHT)) buffer565
  /\ length (convertRgb565ToRgb888 buffer565) = Z.to_nat (WIDTH * HEIGHT).
Proof.
  intros Hlen.
  assert (Heq : convertRgb565ToRgb888 buffer565
                = convertPixel <$> take (Z.to_nat (WIDTH * HEIGHT)) buffer565).
  { unfold convertRgb565ToRgb888, convert_loop.
    rewrite convert_loop_prefix by lia.
    rewrite Nat.sub_diag. cbn [replicate]. rewrite app_nil_r. reflexivity. }
  split; [exact Heq|].
  rewrite Heq, length_fmap, length_take. lia.
Qed.

Lemma convertRgb565ToRgb888_pointwise_witness :
  convertRgb565ToRgb888 (replicate (Z.to_nat (WIDTH * HEIGHT) + 5) 2016)
  = convertPixel <$>
      take (Z.to_nat (WIDTH * HEIGHT))
        (replicate (Z.to_nat (WIDTH * HEIGHT) + 5) 2016)
  /\ length (convertRgb565ToRgb888
               (replicate (Z.to_nat (WIDTH * HEIGHT) + 5) 2016))
     = Z.to_nat (WIDTH * HEIGHT).
Proof.
  apply (convertRgb565ToRgb888_pointwise
           (replicate (Z.to_nat (WIDTH * HEIGHT) + 5) 2016)).
  rewrite length_replicate. lia.
Defined.

(** X3: the conversion loses nothing: two 16-bit packed pixels that convert
    to the same 8-bit-per-channel pixel are the same pixel. *)
Theorem convertPixel_lossless (p q : RGB565.t) :
  0 <= p < 65536 -> 0 <= q < 65536 ->
  convertPixel p = convertPixel q -> p = q.
Proof.
  intros Hp Hq Heq. unfold convertPixel, RED_MAX, GREEN_MAX, BLUE_MAX in Heq.
  injection Heq as Hr Hg Hb.
  pose proof (red_range p). pose proof (green_range p). pose proof (blue_range p).
  pose proof (red_range q). pose proof (green_range q). pose proof (blue_range q).
  apply rescale_inj in Hr; [|lia..].
  apply rescale_inj in Hg; [|lia..].
  apply rescale_inj in Hb; [|lia..].
  rewrite (rgb565_recompose p Hp), (rgb565_recompose q Hq), Hr, Hg, Hb.
  reflexivity.
Qed.

Lemma convertPixel_lossless_witness : 45678 = 45000 + 678.
Proof.
  apply (convertPixel_lossless 45678 (45000 + 678)); [lia | lia | reflexivity].
Defined.

(** ** What the generator returns, whenever it returns *)

Lemma unique_loop_sound w base (fuel : nat) : forall (c : nat) t path,
  unique_loop w (String.length base) fuel (name_of base c) (counter_of c)
  = (t, Ok path) ->
  Z.of_nat c <= INT_MAX ->
  exists k : nat,
    (c <= k)%nat /\ Z.of_nat k <= INT_MAX
    /\ path = name_of base k
    /\ (name_of base k ∉ fs w)
    /\ (forall j : nat, (c <= j < k)%nat -> name_of base j ∈ fs w)
    /\ t = EStat <$> (name_of base <$> seq c (S (k - c))).
Proof.
  induction fuel as [|fuel IH]; intros c t path Hrun Hc.
  - discriminate Hrun.
  - destruct (decide (name_of base c ∈ fs w)) as [Hin|Hout].
    + destruct (Z.eq_dec (Z.of_nat c) INT_MAX) as [Heq|Hne].
      { rewrite unique_loop_throws in Hrun by assumption. discriminate Hrun. }
      rewrite unique_loop_taken in Hrun by (assumption || lia).
      destruct (unique_loop w (String.length base) fuel (name_of base (S c))
                  (counter_of (S c))) as [t' r'] eqn:Hrest.
      cbn [fst snd] in Hrun. injection Hrun as <- ->.
      destruct (IH (S c) t' path Hrest ltac:(lia))
        as (k & Hck & Hk & Hpath & Hfree & Htaken & Ht).
      exists k. split; [lia|]. split; [exact Hk|]. split; [exact Hpath|].
      split; [exact Hfree|]. split.
      * intros j Hj. destruct (decide (j = c)) as [->|]; [exact Hin|].
        apply Htaken. lia.
      * rewrite Ht. replace (S (k - c)) with (S (S (k - S c))) by lia.
        reflexivity.
    + rewrite unique_loop_free in Hrun by assumption. injection Hrun as <- <-.
      exists c. split; [lia|]. split; [lia|]. split; [reflexivity|].
      split; [exact Hout|]. split; [intros j Hj; lia|].
      rewrite Nat.sub_diag. reflexivity.
Qed.

Lemma examined_stats (paths : list string) : examined (EStat <$> paths) = paths.
Proof.
  induction paths as [|p paths IH]; [reflexivity|]. cbn. unfold examined in IH.
  rewrite IH. reflexivity.
Qed.

Lemma generateFileName_returned (w : World) (fuel : nat)
    (directory baseName : string) (includeDate : bool) (path : string) :
  snd (generateFileName w fuel directory baseName includeDate) = Ok path ->
  exists k : nat,
    Z.of_nat k <= INT_MAX
    /\ path = name_of (base_path w directory baseName includeDate) k
    /\ (path ∉ fs w).
Proof.
  rewrite generateFileName_loop.
  destruct (unique_loop w _ fuel _ _) as [t r] eqn:Hrun. cbn [snd].
  intros ->.
  destruct (unique_loop_sound w _ fuel 0 t path Hrun)
    as (k & _ & Hk & Hpath & Hfree & _); [unfold INT_MAX; lia|].
  exists k. split; [exact Hk|]. split; [exact Hpath|].
  rewrite Hpath. exact Hfree.
Qed.

(** X4: whenever the generator returns, in any file system and after any
    number of rounds, the path it returns does not exist; it is the candidate
    or the candidate with [-N] before the extension, every name tried before
    it exists, the names were examined in that order and once each, and
    nothing but [stat] was done. *)
Theorem generateFileName_sound (w : World) (fuel : nat)
    (directory baseName : string) (includeDate : bool) (path : string) :
  outcome (generateFileName w fuel directory baseName includeDate) = Ok path ->
  (path ∉ fs w)
  /\ exists k : nat,
       Z.of_nat k <= INT_MAX
       /\ path = name_of (base_path w directory baseName includeDate) k
       /\ (forall j : nat, (j < k)%nat ->
             name_of (base_path w directory baseName includeDate) j ∈ fs w)
       /\ trace (generateFileName w fuel directory baseName includeDate)
          = EStat <$>
              (name_of (base_path w directory baseName includeDate)
                 <$> seq 0 (S k))
       /\ NoDup (examined
                   (trace (generateFileName w fuel directory baseName includeDate))).
Proof.
  unfold outcome, trace. rewrite generateFileName_loop.
  destruct (unique_loop w _ fuel _ _) as [t r] eqn:Hrun. cbn [fst snd].
  intros ->.
  destruct (unique_loop_sound w _ fuel 0 t path Hrun)
    as (k & _ & Hk & Hpath & Hfree & Htaken & Ht); [unfold INT_MAX; lia|].
  split; [rewrite Hpath; exact Hfree|].
  exists k. split; [exact Hk|]. split; [exact Hpath|].
  split; [intros j Hj; apply Htaken; lia|].
  rewrite Nat.sub_0_r in Ht. split; [exact Ht|].
  rewrite Ht, examined_stats.
  apply NoDup_fmap_2; [|apply NoDup_seq].
  intros a b. apply name_of_inj.
Qed.

Lemma generateFileName_sound_witness :
  ("shot-2.png" ∉ fs (world_of {[ "shot.png"; "shot-1.png" ]} None true))
  /\ exists k : nat,
       Z.of_nat k <= INT_MAX
       /\ "shot-2.png"
          = name_of (base_path (world_of {[ "shot.png"; "shot-1.png" ]} None true)
                       "" "shot" false) k
       /\ (forall j : nat, (j < k)%nat ->
             name_of (base_path (world_of {[ "shot.png"; "shot-1.png" ]} None true)
                        "" "shot" false) j
             ∈ fs (world_of {[ "shot.png"; "shot-1.png" ]} None true))
       /\ trace (generateFileName (world_of {[ "shot.png"; "shot-1.png" ]} None true)
                   7 "" "shot" false)
          = EStat <$>
              (name_of (base_path (world_of {[ "shot.png"; "shot-1.png" ]} None true)
                          "" "shot" false)
                 <$> seq 0 (S k))
       /\ NoDup (examined
                   (trace (generateFileName
                             (world_of {[ "shot.png"; "shot-1.png" ]} None true)
                             7 "" "shot" false))).
Proof.
  apply (generateFileName_sound
           (world_of {[ "shot.png"; "shot-1.png" ]} None true) 7 "" "shot" false
           "shot-2.png").
  vm_compute. reflexivity.
Defined.



(** ** The options, field by field *)

Lemma showHelp_fold_iff (getopt : list (Z * string)) : forall o : Options,
  showHelp (fold_left handle_option getopt o) = true
  <-> showHelp o = true
      \/ exists (code : Z) (optarg : string),
           In (code, optarg) getopt /\ code <> char_code "n"
           /\ code <> char_code "d" /\ code <> char_code "x".
Proof.
  induction getopt as [|[code arg] rest IH]; intros o; cbn [fold_left].
  - split; [intros H; left; exact H|]. intros [H|(c & a & [] & _)]. exact H.
  - rewrite IH. unfold handle_option.
    destruct (Z.eqb_spec code (char_code "n")) as [Hn|Hn];
      [|destruct (Z.eqb_spec code (char_code "d")) as [Hd|Hd];
        [|destruct (Z.eqb_spec code (char_code "x")) as [Hx|Hx]]];
      cbn [showHelp].
    + split.
      * intros [H|(c & a & Hin & Hc)]; [left; exact H|].
        right. exists c, a. split; [right; exact Hin|exact Hc].
      * intros [H|(c & a & [Heq|Hin] & Hc)]; [left; exact H| |].
        { injection Heq as <- <-. destruct Hc as (Hc & _). contradiction. }
        right. exists c, a. split; [exact Hin|exact Hc].
    + split.
      * intros [H|(c & a & Hin & Hc)]; [left; exact H|].
        right. exists c, a. split; [right; exact Hin|exact Hc].
      * intros [H|(c & a & [Heq|Hin] & Hc)]; [left; exact H| |].
        { injection Heq as <- <-. destruct Hc as (_ & Hc & _). contradiction. }
        right. exists c, a. split; [exact Hin|exact Hc].
    + split.
      * intros [H|(c & a & Hin & Hc)]; [left; exact H|].
        right. exists c, a. split; [right; exact Hin|exact Hc].
      * intros [H|(c & a & [Heq|Hin] & Hc)]; [left; exact H| |].
        { injection Heq as <- <-. destruct Hc as (_ & _ & Hc). contradiction. }
        right. exists c, a. split; [exact Hin|exact Hc].
    + split.
      * intros _. right. exists code, arg. split; [left; reflexivity|].
        split; [exact Hn|]. split; [exact Hd|exact Hx].
      * intros _. left. reflexivity.
Qed.

Lemma includeDate_fold_iff (getopt : list (Z * string)) : forall o : Options,
  includeDate (fold_left handle_option getopt o) = false
  <-> includeDate o = false
      \/ exists optarg : string, In (char_code "x", optarg) getopt.
Proof.
  induction getopt as [|[code arg] rest IH]; intros o; cbn [fold_left].
  - split; [intros H; left; exact H|]. intros [H|(a & [])]. exact H.
  - rewrite IH. unfold handle_option.
    destruct (Z.eqb_spec code (char_code "n")) as [Hn|Hn];
      [|destruct (Z.eqb_spec code (char_code "d")) as [Hd|Hd];
        [|destruct (Z.eqb_spec code (char_code "x")) as [Hx|Hx]]];
      cbn [includeDate].
    + split.
      * intros [H|(a & Hin)]; [left; exact H|right; exists a; right; exact Hin].
      * intros [H|(a & [Heq|Hin])]; [left; exact H| |right; exists a; exact Hin].
        injection Heq as Hc _. rewrite Hn in Hc. discriminate Hc.
    + split.
      * intros [H|(a & Hin)]; [left; exact H|right; exists a; right; exact Hin].
      * intros [H|(a & [Heq|Hin])]; [left; exact H| |right; exists a; exact Hin].
        injection Heq as Hc _. rewrite Hd in Hc. discriminate Hc.
    + split.
      * intros _. right. exists arg. left. rewrite Hx. reflexivity.
      * intros _. left. reflexivity.
    + split.
      * intros [H|(a & Hin)]; [left; exact H|right; exists a; right; exact Hin].
      * intros [H|(a & [Heq|Hin])]; [left; exact H| |right; exists a; exact Hin].
        injection Heq as Hc _. congruence.
Qed.

Lemma baseName_fold_keep (getopt : list (Z * string)) : forall o : Options,
  (forall optarg : string, ~ In (char_code "n", optarg) getopt) ->
  baseName (fold_left handle_option getopt o) = baseName o.
Proof.
  induction getopt as [|[code arg] rest IH]; intros o Hno; [reflexivity|].
  cbn [fold_left]. rewrite IH.
  - unfold handle_option.
    destruct (Z.eqb_spec code (char_code "n")) as [Hn|Hn].
    + destruct (Hno arg). left. rewrite Hn. reflexivity.
    + repeat (destruct (_ =? _); [reflexivity|]). reflexivity.
  - intros a Hin. apply (Hno a). right. exact Hin.
Qed.

Lemma directory_fold_keep (getopt : list (Z * string)) : forall o : Options,
  (forall optarg : string, ~ In (char_code "d", optarg) getopt) ->
  directory (fold_left handle_option getopt o) = directory o.
Proof.
  induction getopt as [|[code arg] rest IH]; intros o Hno; [reflexivity|].
  cbn [fold_left]. rewrite IH.
  - unfold handle_option.
    destruct (Z.eqb_spec code (char_code "n")) as [Hn|Hn]; [reflexivity|].
    destruct (Z.eqb_spec code (char_code "d")) as [Hd|Hd].
    + destruct (Hno arg). left. rewrite Hd. reflexivity.
    + destruct (_ =? _); reflexivity.
  - intros a Hin. apply (Hno a). right. exact Hin.
Qed.

(** X7: how the options come out of the loop over [getopt_long]: the
    timestamp is dropped exactly when some [-x] was given; the base name is
    the argument of the last [-n] and [screenshot] if there is none; the
    directory is the argument of the last [-d] and empty if there is none. *)
Theorem parse_options_fields (getopt : list (Z * string)) :
  (includeDate (parse_options getopt) = false
   <-> exists optarg : string, In (char_code "x", optarg) getopt)
  /\ ((forall optarg : string, ~ In (char_code "n", optarg) getopt) ->
      baseName (parse_options getopt) = "screenshot")
  /\ (forall (before after : list (Z * string)) (name : string),
        getopt = before ++ (char_code "n", name) :: after ->
        (forall optarg : string, ~ In (char_code "n", optarg) after) ->
        baseName (parse_options getopt) = name)
  /\ ((forall optarg : string, ~ In (char_code "d", optarg) getopt) ->
      directory (parse_options getopt) = "")
  /\ (forall (before after : list (Z * string)) (dir : string),
        getopt = before ++ (char_code "d", dir) :: after ->
        (forall optarg : string, ~ In (char_code "d", optarg) after) ->
        directory (parse_options getopt) = dir).
Proof.
  unfold parse_options. split; [|split; [|split; [|split]]].
  - rewrite includeDate_fold_iff. cbn [includeDate default_options].
    split; [intros [H|H]; [discriminate H|exact H]|intros H; right; exact H].
  - intros Hno. rewrite baseName_fold_keep by exact Hno. reflexivity.
  - intros before after name -> Hno.
    rewrite fold_left_app. cbn [fold_left].
    rewrite baseName_fold_keep by exact Hno. reflexivity.
  - intros Hno. rewrite directory_fold_keep by exact Hno. reflexivity.
  - intros before after dir -> Hno.
    rewrite fold_left_app. cbn [fold_left].
    rewrite directory_fold_keep by exact Hno. reflexivity.
Qed.

Lemma parse_options_fields_witness :
  (includeDate (parse_options [(char_code "n", "a"); (char_code "x", "");
                               (char_code "n", "b")]) = false
   <-> exists optarg : string,
         In (char_code "x", optarg)
            [(char_code "n", "a"); (char_code "x", ""); (char_code "n", "b")])
  /\ baseName (parse_options [(char_code "n", "a"); (char_code "x", "");
                              (char_code "n", "b")]) = "b"
  /\ directory (parse_options [(char_code "n", "a"); (char_code "x", "");
                               (char_code "n", "b")]) = "".
Proof.
  destruct (parse_options_fields
              [(char_code "n", "a"); (char_code "x", ""); (char_code "n", "b")])
    as (Hx & _ & Hn & Hd & _).
  split; [exact Hx|]. split.
  - apply (Hn [(char_code "n", "a"); (char_code "x", "")] [] "b");
      [reflexivity|intros optarg []].
  - apply Hd. intros optarg [H|[H|[H|[]]]]; discriminate H.
Defined.

(** ** Every way through [writePng] *)

Lemma writePng_shape w filename buffer :
  exists (calls : list png_call) (ending : list event),
    fst (writePng w filename buffer)
    = EFopen filename :: (EPng <$> calls) ++ ending
    /\ calls `prefix_of` png_calls buffer
    /\ ((fopen_ok w filename = false /\ calls = []
         /\ ending = [EStderr ("Failed to open file for writing" +:+ nl)])
        \/ (fopen_ok w filename = true /\ png_write_struct_ok w = false
            /\ calls = []
            /\ ending = [EStderr ("Failed to create PNG write struct" +:+ nl);
                         EFclose])
        \/ (fopen_ok w filename = true /\ png_write_struct_ok w = true
            /\ png_info_struct_ok w = false /\ calls = []
            /\ ending = [EStderr ("Failed to create PNG info struct" +:+ nl);
                         EPngDestroy; EFclose])
        \/ (fopen_ok w filename = true /\ png_write_struct_ok w = true
            /\ png_info_struct_ok w = true
            /\ calls <> png_calls buffer
            /\ ending = [EStderr (png_error_text w);
                         EStderr ("Failed to set PNG jump buffer" +:+ nl);
                         EPngDestroy; EFclose])
        \/ (fopen_ok w filename = true /\ png_write_struct_ok w = true
            /\ png_info_struct_ok w = true /\ calls = png_calls buffer
            /\ ending = [EPngDestroy; EFclose])).
Proof.
  unfold writePng.
  destruct (fopen_ok w filename) eqn:Hopen; cbn [negb].
  2:{ exists [], [EStderr ("Failed to open file for writing" +:+ nl)].
      split; [reflexivity|]. split; [apply prefix_nil|]. left. auto. }
  destruct (png_write_struct_ok w) eqn:Hws; cbn [negb].
  2:{ exists [], [EStderr ("Failed to create PNG write struct" +:+ nl); EFclose].
      split; [reflexivity|]. split; [apply prefix_nil|]. right. left. auto. }
  destruct (png_info_struct_ok w) eqn:Hinfo; cbn [negb].
  2:{ exists [], [EStderr ("Failed to create PNG info struct" +:+ nl);
                  EPngDestroy; EFclose].
      split; [reflexivity|]. split; [apply prefix_nil|]. right. right. left. auto. }
  assert (Hfull : exists (calls : list png_call) (ending : list event),
             fst (emit (EFopen filename) >>>
                  emits (EPng <$> png_calls buffer) >>>
                  emit EPngDestroy >>> emit EFclose)
             = EFopen filename :: (EPng <$> calls) ++ ending
             /\ calls `prefix_of` png_calls buffer
             /\ calls = png_calls buffer /\ ending = [EPngDestroy; EFclose]).
  { exists (png_calls buffer), [EPngDestroy; EFclose].
    split; [reflexivity|]. split; [reflexivity|]. auto. }
  destruct (png_error_at w) as [k|].
  - destruct (Nat.ltb_spec k (length (png_calls buffer))) as [Hk|Hk].
    + exists (take k (png_calls buffer)),
        [EStderr (png_error_text w);
         EStderr ("Failed to set PNG jump buffer" +:+ nl); EPngDestroy; EFclose].
      split; [reflexivity|]. split; [apply prefix_take|].
      right. right. right. left. repeat split; try reflexivity.
      intros Heq. apply (f_equal length) in Heq.
      rewrite length_take in Heq. lia.
    + destruct Hfull as (calls & ending & Ht & Hp & Hc & He).
      exists calls, ending. split; [exact Ht|]. split; [exact Hp|].
      right. right. right. right. auto.
  - destruct Hfull as (calls & ending & Ht & Hp & Hc & He).
    exists calls, ending. split; [exact Ht|]. split; [exact Hp|].
    right. right. right. right. auto.
Qed.

Lemma filter_png (kind : event -> bool) (calls : list png_call) :
  (forall call, kind (EPng call) = false) ->
  List.filter kind (EPng <$> calls) = [].
Proof.
  intros Hkind. induction calls as [|c calls IH]; [reflexivity|].
  cbn. rewrite Hkind. exact IH.
Qed.

Lemma omap_png {A} (pick : event -> option A) (calls : list png_call) :
  (forall call, pick (EPng call) = None) -> omap pick (EPng <$> calls) = [].
Proof.
  intros Hpick. induction calls as [|c calls IH]; [reflexivity|].
  cbn. rewrite Hpick. exact IH.
Qed.

(** X8: given a full image, on every path through it (destination that
    cannot be opened, libpng structure that cannot be created, libpng error
    at any call, or no error) [writePng] calls [fopen] once, on the file name
    it was given; it closes the file exactly once if the open succeeded (and
    then as its last action) and never otherwise, and it destroys the libpng
    write structure exactly once if that structure was created and never
    otherwise. *)
Theorem writePng_releases (w : World) (filename : string)
    (buffer : list RGB888.t) :
  length buffer = Z.to_nat (WIDTH * HEIGHT) ->
  opened_files (trace (writePng w filename buffer)) = [filename]
  /\ occurrences is_fclose (trace (writePng w filename buffer))
     = (if fopen_ok w filename then 1 else 0)%nat
  /\ occurrences is_destroy (trace (writePng w filename buffer))
     = (if fopen_ok w filename && png_write_struct_ok w then 1 else 0)%nat
  /\ (fopen_ok w filename = true ->
      last (trace (writePng w filename buffer)) = Some EFclose).
Proof.
  intros _. unfold trace, opened_files, occurrences.
  destruct (writePng_shape w filename buffer) as (calls & ending & -> & _ & Hcase).
  cbn [omap list_omap fopen_of List.filter is_fclose is_destroy].
  rewrite omap_app, !List.filter_app, !length_app.
  rewrite (omap_png fopen_of), !filter_png by reflexivity.
  change (EFopen filename :: ?l ++ ending) with ((EFopen filename :: l) ++ ending).
  destruct Hcase as [(Ho & _ & ->)|[(Ho & Hw & _ & ->)|[(Ho & Hw & _ & _ & ->)
                    |[(Ho & Hw & _ & _ & ->)|(Ho & Hw & _ & _ & ->)]]]];
    rewrite Ho, ?Hw;
    (repeat split; [reflexivity..|]); intros Hopen;
    first [discriminate Hopen | rewrite last_app; reflexivity].
Qed.

Lemma writePng_releases_witness :
  opened_files
    (trace (writePng
              {| fs := ∅; clock := "2024-07-26-12-00-00"; device := None;
                 fopen_ok := fun _ => true; png_write_struct_ok := true;
                 png_info_struct_ok := true; png_error_at := Some 100%nat;
                 png_error_text := "libpng error: Write Error" +:+ nl;
                 getopt_stderr := fun _ => ""; argv_text := "0x7ffc0a1b2c38" |}
              "shot.png"
              (replicate (Z.to_nat (WIDTH * HEIGHT)) (RGB888.mk 8 16 24))))
  = ["shot.png"]
  /\ occurrences is_fclose
       (trace (writePng
                 {| fs := ∅; clock := "2024-07-26-12-00-00"; device := None;
                    fopen_ok := fun _ => true; png_write_struct_ok := true;
                    png_info_struct_ok := true; png_error_at := Some 100%nat;
                    png_error_text := "libpng error: Write Error" +:+ nl;
                    getopt_stderr := fun _ => ""; argv_text := "0x7ffc0a1b2c38" |}
                 "shot.png"
                 (replicate (Z.to_nat (WIDTH * HEIGHT)) (RGB888.mk 8 16 24))))
     = 1%nat
  /\ occurrences is_destroy
       (trace (writePng
                 {| fs := ∅; clock := "2024-07-26-12-00-00"; device := None;
                    fopen_ok := fun _ => true; png_write_struct_ok := true;
                    png_info_struct_ok := true; png_error_at := Some 100%nat;
                    png_error_text := "libpng error: Write Error" +:+ nl;
                    getopt_stderr := fun _ => ""; argv_text := "0x7ffc0a1b2c38" |}
                 "shot.png"
                 (replicate (Z.to_nat (WIDTH * HEIGHT)) (RGB888.mk 8 16 24))))
     = 1%nat
  /\ (true = true ->
      last
        (trace (writePng
                  {| fs := ∅; clock := "2024-07-26-12-00-00"; device := None;
                     fopen_ok := fun _ => true; png_write_struct_ok := true;
                     png_info_struct_ok := true; png_error_at := Some 100%nat;
                     png_error_text := "libpng error: Write Error" +:+ nl;
                     getopt_stderr := fun _ => ""; argv_text := "0x7ffc0a1b2c38" |}
                  "shot.png"
                  (replicate (Z.to_nat (WIDTH * HEIGHT)) (RGB888.mk 8 16 24))))
      = Some EFclose).
Proof.
  apply (writePng_releases
           {| fs := ∅; clock := "2024-07-26-12-00-00"; device := None;
              fopen_ok := fun _ => true; png_write_struct_ok := true;
              png_info_struct_ok := true; png_error_at := Some 100%nat;
              png_error_text := "libpng error: Write Error" +:+ nl;
              getopt_stderr := fun _ => ""; argv_text := "0x7ffc0a1b2c38" |}
           "shot.png"
           (replicate (Z.to_nat (WIDTH * HEIGHT)) (RGB888.mk 8 16 24))).
  apply length_replicate.
Defined.

(** ** Every way through [main] *)

Lemma stat_only_opened (t : list event) :
  forallb is_stat t = true -> opened_files t = [].
Proof.
  induction t as [|e t IH]; [reflexivity|].
  cbn [forallb]. intros [He Ht]%andb_prop.
  destruct e; try discriminate He. cbn. apply IH, Ht.
Qed.

Lemma pixels_of_bytes_length (n : nat) : forall bytes : list Byte.byte,
  length bytes = (2 * n)%nat -> length (pixels_of_bytes bytes) = n.
Proof.
  induction n as [|n IH]; intros bytes Hlen.
  - destruct bytes; [reflexivity|discriminate Hlen].
  - destruct bytes as [|b0 [|b1 rest]]; [discriminate Hlen|simpl in Hlen; lia|].
    cbn [pixels_of_bytes length]. f_equal. apply IH. simpl in Hlen. lia.
Qed.

Lemma writePng_opened w filename buffer :
  opened_files (fst (writePng w filename buffer)) = [filename].
Proof.
  destruct (writePng_shape w filename buffer) as (calls & ending & -> & _ & Hcase).
  unfold opened_files. cbn [omap list_omap fopen_of].
  rewrite omap_app, (omap_png fopen_of) by reflexivity.
  destruct Hcase as [(_ & _ & ->)|[(_ & _ & _ & ->)|[(_ & _ & _ & _ & ->)
                    |[(_ & _ & _ & _ & ->)|(_ & _ & _ & _ & ->)]]]];
    reflexivity.
Qed.

(** The ways [main] can go, in the order of its text. *)
Lemma main_cases (w : World) (fuel : nat) (getopt : list (Z * string)) :
  (showHelp (parse_options getopt) = true
   /\ main w fuel getopt
      = (getopt_long_stderr w 0 getopt ++ [EStdout (usage w)], Ok 0))
  \/ (showHelp (parse_options getopt) = false
      /\ exists (t : list event) (r : result string),
           generateFileName w fuel (directory (parse_options getopt))
             (baseName (parse_options getopt))
             (includeDate (parse_options getopt)) = (t, r)
           /\ forallb is_stat t = true
           /\ (((forall path, r <> Ok path)
                /\ fst (main w fuel getopt) = t
                /\ forall status, snd (main w fuel getopt) <> Ok status)
               \/ exists path : string,
                    r = Ok path
                    /\ ((device w = None
                         /\ main w fuel getopt
                            = (t ++ [EOpenDevice FRAME_BUF_PATH;
                                     EStderr ("Failed to open frame buffer" +:+ nl)],
                               Ok 1))
                        \/ exists stream : list Byte.byte,
                             device w = Some stream
                             /\ ((Z.of_nat (length stream) < WIDTH * HEIGHT * 2
                                  /\ main w fuel getopt
                                     = (t ++ [EOpenDevice FRAME_BUF_PATH;
                                              EReadDevice (WIDTH * HEIGHT * 2);
                                              EStderr ("Failed to read frame buffer"
                                                       +:+ nl)],
                                        Ok 1))
                                 \/ (WIDTH * HEIGHT * 2 <= Z.of_nat (length stream)
                                     /\ main w fuel getopt
                                        = (t ++ [EOpenDevice FRAME_BUF_PATH;
                                                 EReadDevice (WIDTH * HEIGHT * 2)]
                                             ++ fst (writePng w path
                                                       (convertRgb565ToRgb888
                                                          (pixels_of_bytes
                                                             (take (Z.to_nat (WIDTH * HEIGHT * 2))
                                                                stream))))
                                             ++ [EStdout ("Screenshot saved as "
                                                          +:+ path +:+ nl)],
                                           Ok 0)))))).
Proof.
  destruct (showHelp (parse_options getopt)) eqn:Hhelp.
  { left. split; [reflexivity|]. apply main_help, Hhelp. }
  right. split; [reflexivity|].
  pose proof (generateFileName_safe w fuel (directory (parse_options getopt))
                (baseName (parse_options getopt))
                (includeDate (parse_options getopt))) as [_ Hstat].
  destruct (generateFileName w fuel (directory (parse_options getopt))
              (baseName (parse_options getopt))
              (includeDate (parse_options getopt))) as [t r] eqn:Hgen.
  cbn [fst] in Hstat.
  exists t, r. split; [reflexivity|]. split; [exact Hstat|].
  assert (Hfail : (forall path, r <> Ok path) ->
                  fst (main w fuel getopt) = t
                  /\ forall status, snd (main w fuel getopt) <> Ok status).
  { intros Hr. destruct (main_no_name w fuel getopt Hhelp) as [Ht Hs].
    - rewrite Hgen. exact Hr.
    - rewrite Hgen in Ht. split; [exact Ht|exact Hs]. }
  destruct r as [path|what|];
    [|left; split; [discriminate|apply Hfail; discriminate]..].
  right. exists path. split; [reflexivity|].
  destruct (device w) as [stream|] eqn:Hdev.
  - right. exists stream. split; [reflexivity|].
    destruct (Z.lt_ge_cases (Z.of_nat (length stream)) (WIDTH * HEIGHT * 2)).
    + left. split; [assumption|].
      apply (main_short_read w fuel getopt t path stream); assumption.
    + right. split; [assumption|].
      apply (main_encode w fuel getopt t path stream); assumption.
  - left. split; [reflexivity|].
    apply (main_no_device w fuel getopt t path); assumption.
Qed.

(** X6: [main] prints the usage text on the output stream and exits with
    status 0, with nothing before it but the lines [getopt_long] wrote to the
    error stream, exactly when [getopt_long] returned some value other than
    ['n'], ['d'] and ['x']: the help option, an unrecognized option or a
    missing argument, wherever it stands among the options. *)
Theorem help_exactly_when (w : World) (fuel : nat) (getopt : list (Z * string)) :
  main w fuel getopt
  = (getopt_long_stderr w 0 getopt
       ++ [EStdout
             ("Usage: " +:+ argv_text w +:+ " [options]" +:+ nl
               +:+ "Options:" +:+ nl
               +:+ "  -n, --name      Base name for the screenshot file (default: screenshot)" +:+ nl
               +:+ "  -d, --directory Directory to save the screenshot (default: current directory)" +:+ nl
               +:+ "  -x, --no-date   Do not include the date in the filename" +:+ nl
               +:+ "  -h, --help      Show this help message" +:+ nl)],
     Ok 0)
  <-> exists (code : Z) (optarg : string),
        In (code, optarg) getopt /\ code <> char_code "n"
        /\ code <> char_code "d" /\ code <> char_code "x".
Proof.
  split.
  - intros Hmain.
    destruct (main_cases w fuel getopt)
      as [[Hhelp _]|(Hhelp & t & r & _ & _ & Hcase)].
    + unfold parse_options in Hhelp.
      apply showHelp_fold_iff in Hhelp as [Hdefault|Hsome];
        [discriminate Hdefault|exact Hsome].
    + exfalso. rewrite Hmain, (getopt_quiet w getopt Hhelp 0) in Hcase.
      cbn [fst snd app] in Hcase.
      destruct Hcase as [(_ & _ & Hno)|(path & _ & [[_ H]|(stream & _ & [[_ H]|[_ H]])])].
      * destruct (Hno 0). reflexivity.
      * discriminate H.
      * discriminate H.
      * injection H as H. apply (f_equal length) in H.
        rewrite !length_app in H. cbn [length] in H. lia.
  - intros (code & optarg & Hin & Hn & Hd & Hx).
    apply main_help. apply (showHelp_other getopt code optarg); assumption.
Qed.

(** X10: when the frame buffer cannot be opened, no output file is opened
    and nothing reaches the encoder, however the run ends; and unless the
    file system holds [INT_MAX] paths or more, the run ends right after the
    failed open, without a read, with the diagnostic on the error stream and
    exit status 1. *)
Theorem device_unavailable_fails (w : World) (getopt : list (Z * string)) :
  showHelp (parse_options getopt) = false ->
  device w = None ->
  (forall fuel : nat,
     opened_files (trace (main w fuel getopt)) = []
     /\ written_rows (trace (main w fuel getopt)) = [])
  /\ (Z.of_nat (size (fs w)) < INT_MAX ->
      exists (rounds : nat) (names : list event),
        forallb is_stat names = true
        /\ forall fuel : nat,
             main w (rounds + fuel) getopt
             = (names ++ [EOpenDevice FRAME_BUF_PATH;
                          EStderr ("Failed to open frame buffer" +:+ nl)],
                Ok 1)).
Proof.
  intros Hhelp Hdev. split.
  - intros fuel. unfold trace.
    destruct (main_cases w fuel getopt)
      as [[Hhelp' _]|(_ & t & r & _ & Hstat & Hcase)]; [congruence|].
    pose proof (stat_only_opened t Hstat) as Hopened.
    destruct (stat_only_no_other t Hstat) as (_ & _ & Hrows & _).
    destruct Hcase as [(_ & -> & _)|(path & _ & [[_ ->]|(stream & Hdev' & _)])].
    + split; assumption.
    + cbn [fst]. unfold opened_files, written_rows in *.
      rewrite !omap_app, Hopened, Hrows. split; reflexivity.
    + congruence.
  - intros Hsize.
    destruct (generateFileName_returns w (directory (parse_options getopt))
                (baseName (parse_options getopt))
                (includeDate (parse_options getopt)) Hsize)
      as (k & _ & _ & Hrun).
    exists (S k).
    exists (EStat <$>
              (name_of (base_path w (directory (parse_options getopt))
                          (baseName (parse_options getopt))
                          (includeDate (parse_options getopt)))
                 <$> seq 0 (S k))).
    split.
    + pose proof (generateFileName_safe w (S k + 0)
                    (directory (parse_options getopt))
                    (baseName (parse_options getopt))
                    (includeDate (parse_options getopt))) as [_ Hstat].
      rewrite Hrun in Hstat. exact Hstat.
    + intros fuel.
      eapply (main_no_device w (S k + fuel) getopt);
        [exact Hhelp|apply Hrun|exact Hdev].
Qed.

Lemma device_unavailable_fails_witness :
  (forall fuel : nat,
     opened_files (trace (main (world_of {[ "a.png" ]} None true) fuel
                            [(char_code "n", "a"); (char_code "x", "")])) = []
     /\ written_rows (trace (main (world_of {[ "a.png" ]} None true) fuel
                               [(char_code "n", "a"); (char_code "x", "")])) = [])
  /\ (Z.of_nat (size (fs (world_of {[ "a.png" ]} None true))) < INT_MAX ->
      exists (rounds : nat) (names : list event),
        forallb is_stat names = true
        /\ forall fuel : nat,
             main (world_of {[ "a.png" ]} None true) (rounds + fuel)
               [(char_code "n", "a"); (char_code "x", "")]
             = (names ++ [EOpenDevice FRAME_BUF_PATH;
                          EStderr ("Failed to open frame buffer" +:+ nl)],
                Ok 1)).
Proof.
  apply (device_unavailable_fails (world_of {[ "a.png" ]} None true)
           [(char_code "n", "a"); (char_code "x", "")]); reflexivity.
Defined.

(** X11: with a frame buffer that delivers at least [width * height * 2]
    bytes, a destination that can be opened, an encoder that reports no
    error and a file system below [INT_MAX] paths, [main] looks for a free
    name, reads the device, opens the one file of that name (which did not
    exist), hands libpng the conversion of the first [width * height] pixels
    of the stream, scanline by scanline, closes the file, prints
    [Screenshot saved as] with the name, and exits with status 0. *)
Theorem screenshot_saved (w : World) (getopt : list (Z * string))
    (stream : list Byte.byte) :
  showHelp (parse_options getopt) = false ->
  device w = Some stream ->
  WIDTH * HEIGHT * 2 <= Z.of_nat (length stream) ->
  Z.of_nat (size (fs w)) < INT_MAX ->
  (forall path : string, fopen_ok w path = true) ->
  png_write_struct_ok w = true ->
  png_info_struct_ok w = true ->
  png_error_at w = None ->
  exists (rounds : nat) (names : list event) (path : string)
         (image : list RGB888.t),
    forallb is_stat names = true
    /\ (path ∉ fs w)
    /\ image = convertPixel
                 <$> pixels_of_bytes (take (Z.to_nat (WIDTH * HEIGHT * 2)) stream)
    /\ length image = Z.to_nat (WIDTH * HEIGHT)
    /\ concat (scanlines image) = image
    /\ forall fuel : nat,
         main w (rounds + fuel) getopt
         = (names
              ++ [EOpenDevice FRAME_BUF_PATH; EReadDevice (WIDTH * HEIGHT * 2);
                  EFopen path]
              ++ (EPng <$> png_calls image)
              ++ [EPngDestroy; EFclose;
                  EStdout ("Screenshot saved as " +:+ path +:+ nl)],
            Ok 0).
Proof.
  intros Hhelp Hdev Hlen Hsize Hopen Hws Hinfo Herr.
  destruct (generateFileName_returns w (directory (parse_options getopt))
              (baseName (parse_options getopt))
              (includeDate (parse_options getopt)) Hsize)
    as (k & _ & Hfree & Hrun).
  assert (Hpixels : length (pixels_of_bytes
                              (take (Z.to_nat (WIDTH * HEIGHT * 2)) stream))
                    = Z.to_nat (WIDTH * HEIGHT)).
  { apply pixels_of_bytes_length. rewrite length_take.
    unfold WIDTH, HEIGHT in *. lia. }
  assert (Hconv : convertRgb565ToRgb888
                    (pixels_of_bytes (take (Z.to_nat (WIDTH * HEIGHT * 2)) stream))
                  = convertPixel
                      <$> pixels_of_bytes
                            (take (Z.to_nat (WIDTH * HEIGHT * 2)) stream)).
  { unfold convertRgb565ToRgb888. apply convert_loop_map, Hpixels. }
  exists (S k).
  exists (EStat <$>
            (name_of (base_path w (directory (parse_options getopt))
                        (baseName (parse_options getopt))
                        (includeDate (parse_options getopt)))
               <$> seq 0 (S k))).
  exists (name_of (base_path w (directory (parse_options getopt))
                     (baseName (parse_options getopt))
                     (includeDate (parse_options getopt))) k).
  exists (convertPixel
            <$> pixels_of_bytes (take (Z.to_nat (WIDTH * HEIGHT * 2)) stream)).
  split.
  { pose proof (generateFileName_safe w (S k + 0)
                  (directory (parse_options getopt))
                  (baseName (parse_options getopt))
                  (includeDate (parse_options getopt))) as [_ Hstat].
    rewrite Hrun in Hstat. exact Hstat. }
  split; [exact Hfree|]. split; [reflexivity|].
  split; [rewrite length_fmap; exact Hpixels|].
  split.
  { unfold scanlines. rewrite concat_rows. apply take_ge.
    rewrite length_fmap, Hpixels. unfold WIDTH, HEIGHT. lia. }
  intros fuel.
  rewrite (main_encode w (S k + fuel) getopt _ _ stream Hhelp (Hrun fuel) Hdev Hlen).
  rewrite Hconv.
  rewrite writePng_complete by (first [apply Hopen | assumption]).
  cbn [fst app]. rewrite <- !app_assoc. reflexivity.
Qed.

Lemma screenshot_saved_witness :
  exists (rounds : nat) (names : list event) (path : string)
         (image : list RGB888.t),
    forallb is_stat names = true
    /\ (path ∉ fs (world_of {[ "a.png" ]}
                     (Some (replicate (Z.to_nat (WIDTH * HEIGHT * 2)) Byte.xff))
                     true))
    /\ image = convertPixel
                 <$> pixels_of_bytes
                       (take (Z.to_nat (WIDTH * HEIGHT * 2))
                          (replicate (Z.to_nat (WIDTH * HEIGHT * 2)) Byte.xff))
    /\ length image = Z.to_nat (WIDTH * HEIGHT)
    /\ concat (scanlines image) = image
    /\ forall fuel : nat,
         main (world_of {[ "a.png" ]}
                 (Some (replicate (Z.to_nat (WIDTH * HEIGHT * 2)) Byte.xff)) true)
           (rounds + fuel) [(char_code "n", "a"); (char_code "x", "")]
         = (names
              ++ [EOpenDevice FRAME_BUF_PATH; EReadDevice (WIDTH * HEIGHT * 2);
                  EFopen path]
              ++ (EPng <$> png_calls image)
              ++ [EPngDestroy; EFclose;
                  EStdout ("Screenshot saved as " +:+ path +:+ nl)],
            Ok 0).
Proof.
  apply (screenshot_saved
           (world_of {[ "a.png" ]}
              (Some (replicate (Z.to_nat (WIDTH * HEIGHT * 2)) Byte.xff)) true)
           [(char_code "n", "a"); (char_code "x", "")]
           (replicate (Z.to_nat (WIDTH * HEIGHT * 2)) Byte.xff)).
  - reflexivity.
  - reflexivity.
  - rewrite length_replicate. unfold WIDTH, HEIGHT. lia.
  - vm_compute. reflexivity.
  - intros path. reflexivity.
  - reflexivity.
  - reflexivity.
  - reflexivity.
Defined.

(** X12: when [main] returns, its exit status is 0 or 1, and it is 1
    exactly when the pipeline was run (no help) and the frame buffer could
    not be opened or delivered fewer than [width * height * 2] bytes. *)
Theorem main_exit_status (w : World) (fuel : nat) (getopt : list (Z * string))
    (status : Z) :
  outcome (main w fuel getopt) = Ok status ->
  (status = 0 \/ status = 1)
  /\ (status = 1
      <-> showHelp (parse_options getopt) = false
          /\ (device w = None
              \/ exists stream : list Byte.byte,
                   device w = Some stream
                   /\ Z.of_nat (length stream) < WIDTH * HEIGHT * 2)).
Proof.
  unfold outcome. intros Hstatus.
  destruct (main_cases w fuel getopt)
    as [[Hhelp Hmain]|(Hhelp & t & r & _ & _ & Hcase)].
  - rewrite Hmain in Hstatus. injection Hstatus as <-.
    split; [left; reflexivity|].
    split; [discriminate|]. intros [Hno _]. congruence.
  - destruct Hcase as [(_ & _ & Hno)
                      |(path & _ & [[Hdev Hmain]
                                   |(stream & Hdev & [[Hlen Hmain]|[Hlen Hmain]])])].
    + destruct (Hno status Hstatus).
    + rewrite Hmain in Hstatus. injection Hstatus as <-.
      split; [right; reflexivity|].
      split; [intros _; split; [exact Hhelp|left; exact Hdev]|reflexivity].
    + rewrite Hmain in Hstatus. injection Hstatus as <-.
      split; [right; reflexivity|].
      split; [|reflexivity]. intros _. split; [exact Hhelp|].
      right. exists stream. split; assumption.
    + rewrite Hmain in Hstatus. injection Hstatus as <-.
      split; [left; reflexivity|].
      split; [discriminate|].
      intros [_ [Hnone|(stream' & Hdev' & Hshort)]]; [congruence|].
      rewrite Hdev in Hdev'. injection Hdev' as <-. lia.
Qed.

Lemma main_exit_status_witness :
  (1 = 0 \/ 1 = 1)
  /\ (1 = 1
      <-> showHelp (parse_options [(char_code "x", "")]) = false
          /\ (device (world_of ∅ (Some [Byte.x00; Byte.x01]) true) = None
              \/ exists stream : list Byte.byte,
                   device (world_of ∅ (Some [Byte.x00; Byte.x01]) true) = Some stream
                   /\ Z.of_nat (length stream) < WIDTH * HEIGHT * 2)).
Proof.
  apply (main_exit_status (world_of ∅ (Some [Byte.x00; Byte.x01]) true) 2
           [(char_code "x", "")] 1).
  vm_compute. reflexivity.
Defined.

(** X13: in any run, [main] hands [fopen] at most one path; when it does,
    help was not requested, the frame buffer had delivered all
    [width * height * 2] bytes, and the path is the one the generator
    returned, which did not exist when it was generated. *)
Theorem main_opens (w : World) (fuel : nat) (getopt : list (Z * string)) :
  opened_files (trace (main w fuel getopt)) = []
  \/ exists (path : string) (stream : list Byte.byte),
       opened_files (trace (main w fuel getopt)) = [path]
       /\ (path ∉ fs w)
       /\ outcome (generateFileName w fuel (directory (parse_options getopt))
                     (baseName (parse_options getopt))
                     (includeDate (parse_options getopt))) = Ok path
       /\ showHelp (parse_options getopt) = false
       /\ device w = Some stream
       /\ WIDTH * HEIGHT * 2 <= Z.of_nat (length stream).
Proof.
  unfold trace, outcome.
  destruct (main_cases w fuel getopt)
    as [[_ ->]|(Hhelp & t & r & Hgen & Hstat & Hcase)].
  { left. cbn [fst].
    destruct (stderr_only_silent _ (getopt_long_stderr_only w getopt 0))
      as (_ & Hquiet & _).
    unfold opened_files in *. rewrite omap_app, Hquiet. reflexivity. }
  pose proof (stat_only_opened t Hstat) as Hopened.
  destruct Hcase as [(_ & -> & _)
                    |(path & -> & [[_ ->]
                                  |(stream & Hdev & [[_ ->]|[Hlen ->]])])].
  - left. exact Hopened.
  - left. cbn [fst]. unfold opened_files in *. rewrite omap_app, Hopened.
    reflexivity.
  - left. cbn [fst]. unfold opened_files in *. rewrite omap_app, Hopened.
    reflexivity.
  - right. exists path, stream. split.
    { cbn [fst].
      pose proof (writePng_opened w path
                    (convertRgb565ToRgb888
                       (pixels_of_bytes
                          (take (Z.to_nat (WIDTH * HEIGHT * 2)) stream)))) as Hw.
      unfold opened_files in *. rewrite !omap_app, Hopened, Hw. reflexivity. }
    split.
    { destruct (generateFileName_returned w fuel
                  (directory (parse_options getopt))
                  (baseName (parse_options getopt))
                  (includeDate (parse_options getopt)) path)
        as (_ & _ & _ & Hfree); [rewrite Hgen; reflexivity|exact Hfree]. }
    rewrite Hgen. repeat split; assumption.
Qed.

(** ** Two runs in a row *)

Lemma generateFileName_least (w : World) (fuel : nat)
    (directory baseName : string) (includeDate : bool) (path : string) :
  snd (generateFileName w fuel directory baseName includeDate) = Ok path ->
  exists k : nat,
    path = name_of (base_path w directory baseName includeDate) k
    /\ (path ∉ fs w)
    /\ forall j : nat, (j < k)%nat ->
         name_of (base_path w directory baseName includeDate) j ∈ fs w.
Proof.
  rewrite generateFileName_loop.
  destruct (unique_loop w _ fuel _ _) as [t r] eqn:Hrun. cbn [snd].
  intros ->.
  destruct (unique_loop_sound w _ fuel 0 t path Hrun)
    as (k & _ & _ & Hpath & Hfree & Htaken & _); [unfold INT_MAX; lia|].
  exists k. split; [exact Hpath|]. split; [rewrite Hpath; exact Hfree|].
  intros j Hj. apply Htaken. lia.
Qed.

(** X14: two runs in a row never return the same path: if a first run
    returned a path and that file has since been created, a second run with
    the same directory, base name and timestamp text returns, if anything, a
    path that is new again, with a larger disambiguator than the first. *)
Theorem second_run_distinct (w1 w2 : World) (fuel1 fuel2 : nat)
    (directory baseName : string) (includeDate : bool) (path1 path2 : string) :
  outcome (generateFileName w1 fuel1 directory baseName includeDate) = Ok path1 ->
  fs w2 = fs w1 ∪ {[ path1 ]} ->
  clock w2 = clock w1 ->
  outcome (generateFileName w2 fuel2 directory baseName includeDate) = Ok path2 ->
  path2 <> path1
  /\ (path2 ∉ fs w1)
  /\ exists k1 k2 : nat,
       (k1 < k2)%nat
       /\ path1 = name_of (base_path w1 directory baseName includeDate) k1
       /\ path2 = name_of (base_path w1 directory baseName includeDate) k2.
Proof.
  unfold outcome. intros Hrun1 Hfs Hclock Hrun2.
  apply generateFileName_least in Hrun1 as (k1 & Hp1 & Hfree1 & Htaken1).
  apply generateFileName_least in Hrun2 as (k2 & Hp2 & Hfree2 & Htaken2).
  assert (Hbase : base_path w2 directory baseName includeDate
                  = base_path w1 directory baseName includeDate).
  { unfold base_path, getDate. rewrite Hclock. reflexivity. }
  rewrite Hbase in Hp2, Htaken2. rewrite Hfs in Hfree2. clear Htaken2 Hfs.
  assert (Hne : path2 <> path1).
  { intros ->. apply Hfree2, elem_of_union. right. apply elem_of_singleton.
    reflexivity. }
  split; [exact Hne|]. split.
  { intros Hin. apply Hfree2, elem_of_union. left. exact Hin. }
  exists k1, k2. split; [|split; assumption].
  destruct (Nat.lt_trichotomy k1 k2) as [Hlt|[Heq|Hgt]]; [exact Hlt| |].
  - subst k2. congruence.
  - exfalso. apply Hfree2. apply elem_of_union. left.
    rewrite Hp2. apply Htaken1, Hgt.
Qed.

Lemma second_run_distinct_witness :
  "shot-1.png" <> "shot.png"
  /\ ("shot-1.png" ∉ fs (world_of ∅ None true))
  /\ exists k1 k2 : nat,
       (k1 < k2)%nat
       /\ "shot.png"
          = name_of (base_path (world_of ∅ None true) "" "shot" false) k1
       /\ "shot-1.png"
          = name_of (base_path (world_of ∅ None true) "" "shot" false) k2.
Proof.
  apply (second_run_distinct (world_of ∅ None true)
           (world_of (∅ ∪ {[ "shot.png" ]}) None true) 3 3 "" "shot" false
           "shot.png" "shot-1.png").
  - vm_compute. reflexivity.
  - reflexivity.
  - reflexivity.
  - vm_compute. reflexivity.
Defined.
